(** * TaskWeather: a shallow embedding of [src/index.js] and [src/models/Task.js]

    The application is an Express server with five routes over one Mongoose
    model.  Each route handler is embedded as a computation in a small
    state-and-exception monad over a [World] (connection state, stored
    documents, process environment, log of outbound HTTP requests).  The
    JavaScript and Mongoose primitives the handlers call ([split], [parseInt],
    [Date.UTC], [Math.round], [encodeURIComponent], schema validation) are
    embedded from their specifications.

    Conventions.
    - A JavaScript string is a [string]; each character stands for one code
      unit below 256.
    - A JavaScript number that the handlers use as an integer is a [Num]:
      [NaN] or an exact integer.  The arithmetic is exact, which agrees with
      IEEE doubles as long as magnitudes stay below 2^53.
    - Numbers of the weather payload are rationals ([Q]); every finite double
      is one.
    - A query on a connected store fails only by a cast or validation error;
      the ten-second timer of the weather request is not modelled, the
      outcome of the request being read from the [Runtime].
    - Rendering a view always succeeds: the templates are not part of the
      sources.
    - Logging ([console.log], [console.error]) is left out. *)

From Stdlib Require Import ZArith QArith Qround Qabs List String Ascii Bool Lia.
From Stdlib Require Import DecimalString Lqa.
From Stdlib Require Import Sorting.Sorted Sorting.Permutation.
Import ListNotations.

Local Open Scope string_scope.
Local Open Scope Z_scope.

(** ** JavaScript primitives *)

Module JS.

(** Integer-valued numbers: [NaN] or an integer. *)
Inductive Num : Type :=
| NaN
| Int (z : Z).

Definition num_sub (a b : Num) : Num :=
  match a, b with
  | Int x, Int y => Int (x - y)
  | _, _ => NaN
  end.

(** Truthiness of a value that is a string or [undefined]/[null]:
    only a non-empty string is truthy. *)
Definition truthy (v : option string) : bool :=
  match v with
  | Some (String _ _) => true
  | _ => false
  end.

(** [a || b] on such values. *)
Definition or_else (v : option string) (d : string) : string :=
  match v with
  | Some (String c r) => String c r
  | _ => d
  end.

(** [String.prototype.split(sep)] for a one-character separator.  The result
    always has at least one element. *)
Fixpoint split (sep : ascii) (s : string) : list string :=
  match s with
  | EmptyString => [EmptyString]
  | String c r =>
      if Ascii.eqb c sep then EmptyString :: split sep r
      else match split sep r with
           | p :: ps => String c p :: ps
           | [] => [String c EmptyString]
           end
  end.

(** Array indexing: [undefined] out of range. *)
Definition index (parts : list string) (i : nat) : option string :=
  nth_error parts i.

(** White space and line terminators skipped by [parseInt]
    (TAB, LF, VT, FF, CR, SP, NBSP). *)
Definition is_white_space (c : ascii) : bool :=
  let n := nat_of_ascii c in
  existsb (Nat.eqb n) [9; 10; 11; 12; 13; 32; 160]%nat.

Fixpoint trim_start (s : string) : string :=
  match s with
  | String c r => if is_white_space c then trim_start r else s
  | EmptyString => EmptyString
  end.

(** Value of a digit in radix up to 36. *)
Definition digit_value (c : ascii) : option Z :=
  let n := Z.of_nat (nat_of_ascii c) in
  if (48 <=? n) && (n <=? 57) then Some (n - 48)
  else if (97 <=? n) && (n <=? 122) then Some (n - 87)
  else if (65 <=? n) && (n <=? 90) then Some (n - 55)
  else None.

(** The longest prefix of radix-[R] digits, accumulated; [None] when the
    prefix is empty. *)
Fixpoint radix_prefix (R : Z) (s : string) (acc : option Z) : option Z :=
  match s with
  | EmptyString => acc
  | String c r =>
      match digit_value c with
      | Some d =>
          if d <? R
          then radix_prefix R r (Some (match acc with Some a => a | None => 0 end * R + d))
          else acc
      | None => acc
      end
  end.

(** Step 3-5 of [parseInt]: an optional sign is removed. *)
Definition strip_sign (s : string) : Z * string :=
  match s with
  | String c r =>
      if Ascii.eqb c "-" then (-1, r)
      else if Ascii.eqb c "+" then (1, r)
      else (1, s)
  | EmptyString => (1, s)
  end.

(** Step 8-10 of [parseInt] with no radix argument: radix 16 after a [0x] or
    [0X] prefix, radix 10 otherwise. *)
Definition strip_prefix (s : string) : Z * string :=
  match s with
  | String c0 (String c1 r) =>
      if Ascii.eqb c0 "0" && (Ascii.eqb c1 "x" || Ascii.eqb c1 "X") then (16, r)
      else (10, s)
  | _ => (10, s)
  end.

(** [parseInt(string)] with no radix argument. *)
Definition parseInt (input : string) : Num :=
  let '(sign, s) := strip_sign (trim_start input) in
  let '(R, s) := strip_prefix s in
  match radix_prefix R s None with
  | None => NaN
  | Some n => Int (sign * n)
  end.

(** [parseInt(v)] where [v] may be [undefined]: the argument is first
    converted with ToString. *)
Definition parseInt_value (v : option string) : Num :=
  parseInt (match v with Some s => s | None => "undefined" end).

(** *** Date.UTC (ECMA-262, Date objects) *)

Definition msPerDay : Z := 86400000.
Definition msPerHour : Z := 3600000.
Definition msPerMinute : Z := 60000.

Definition DayFromYear (y : Z) : Z :=
  365 * (y - 1970) + (y - 1969) / 4 - (y - 1901) / 100 + (y - 1601) / 400.

Definition InLeapYear (y : Z) : bool :=
  if negb (y mod 4 =? 0) then false
  else if negb (y mod 100 =? 0) then true
  else y mod 400 =? 0.

(** Days of the year before the first of month [mn] (0-indexed). *)
Definition DaysBeforeMonth (leap : bool) (mn : Z) : Z :=
  let l := if leap then 1 else 0 in
  match mn with
  | 0 => 0
  | 1 => 31
  | 2 => 59 + l
  | 3 => 90 + l
  | 4 => 120 + l
  | 5 => 151 + l
  | 6 => 181 + l
  | 7 => 212 + l
  | 8 => 243 + l
  | 9 => 273 + l
  | 10 => 304 + l
  | _ => 334 + l
  end.

(** [MakeDay]: the day number of the first of the month, plus [date - 1].
    "If this is not possible (because some argument is out of range), return
    NaN" is read as the engine does: a year beyond one million or a month
    beyond ten million in magnitude. *)
Definition MakeDay (year month date : Num) : Num :=
  match year, month, date with
  | Int y, Int m, Int dt =>
      if (Z.abs y <=? 1000000) && (Z.abs m <=? 10000000) then
        let ym := y + m / 12 in
        let mn := m mod 12 in
        Int (DayFromYear ym + DaysBeforeMonth (InLeapYear ym) mn + dt - 1)
      else NaN
  | _, _, _ => NaN
  end.

Definition MakeTime (hour min sec ms : Num) : Num :=
  match hour, min, sec, ms with
  | Int h, Int m, Int s, Int milli =>
      Int (h * msPerHour + m * msPerMinute + s * 1000 + milli)
  | _, _, _, _ => NaN
  end.

Definition MakeDate (day time : Num) : Num :=
  match day, time with
  | Int d, Int t => Int (d * msPerDay + t)
  | _, _ => NaN
  end.

Definition TimeClip (time : Num) : Num :=
  match time with
  | Int t => if Z.abs t >? 8640000000000000 then NaN else Int t
  | NaN => NaN
  end.

(** Years 0 to 99 denote 1900 to 1999. *)
Definition MakeFullYear (year : Num) : Num :=
  match year with
  | Int y => if (0 <=? y) && (y <=? 99) then Int (1900 + y) else Int y
  | NaN => NaN
  end.

(** [Date.UTC(year, month, date, hours, minutes)]. *)
Definition Date_UTC (year month date hours minutes : Num) : Num :=
  TimeClip (MakeDate (MakeDay (MakeFullYear year) month date)
                     (MakeTime hours minutes (Int 0) (Int 0))).

(** [Date.UTC(year, month, date)]: hours and minutes default to [+0]. *)
Definition Date_UTC3 (year month date : Num) : Num :=
  Date_UTC year month date (Int 0) (Int 0).

(** [Math.round]: the nearest integer, ties towards positive infinity. *)
Definition Math_round (x : Q) : Z := Qfloor (x + (1 # 2)).

(** *** encodeURIComponent *)

Definition is_uri_unreserved (c : ascii) : bool :=
  let n := nat_of_ascii c in
  ((48 <=? n) && (n <=? 57))%nat || ((65 <=? n) && (n <=? 90))%nat
  || ((97 <=? n) && (n <=? 122))%nat
  || existsb (Ascii.eqb c) ["-"; "_"; "."; "!"; "~"; "*"; "'"; "("; ")"]%char.

Definition hex_digit (n : nat) : ascii :=
  nth n ["0"; "1"; "2"; "3"; "4"; "5"; "6"; "7"; "8"; "9";
         "A"; "B"; "C"; "D"; "E"; "F"]%char "0"%char.

Definition percent_byte (b : nat) (rest : string) : string :=
  String "%" (String (hex_digit (b / 16)) (String (hex_digit (b mod 16)) rest)).

(** Code units below 128 are one UTF-8 byte, the others (below 256) two. *)
Fixpoint encodeURIComponent (s : string) : string :=
  match s with
  | EmptyString => EmptyString
  | String c r =>
      let n := nat_of_ascii c in
      if is_uri_unreserved c then String c (encodeURIComponent r)
      else if (n <? 128)%nat then percent_byte n (encodeURIComponent r)
      else percent_byte (192 + n / 64) (percent_byte (128 + n mod 64) (encodeURIComponent r))
  end.

End JS.

Import JS.

(** ** Data model *)

(** An ObjectId is a 96-bit number, written as 24 hexadecimal digits. *)
Definition ObjectId : Type := N.

Fixpoint hex_value (s : string) (acc : N) : option N :=
  match s with
  | EmptyString => Some acc
  | String c r =>
      match digit_value c with
      | Some d => if d <? 16 then hex_value r (acc * 16 + Z.to_N d)%N else None
      | None => None
      end
  end.

(** Mongoose's cast of a route parameter to an ObjectId: a string of 24
    hexadecimal digits; anything else is a CastError. *)
Definition castObjectId (s : string) : option ObjectId :=
  if (String.length s =? 24)%nat then hex_value s 0%N else None.

(** A stored document of the [Task] model ([src/models/Task.js]).  Dates are
    milliseconds since the epoch. *)
Record Task : Type := mkTask {
  _id : ObjectId;
  activity : string;
  city : string;
  state : option string;
  country : string;
  taskDate : Z;
  taskTime : option string;
  createdAt : Z
}.

(** The fields of [req.body], as a form post delivers them: each is a string
    or absent. *)
Module Req.
Record body : Type := mkBody {
  activity : option string;
  city : option string;
  state : option string;
  country : option string;
  taskDate : option string;
  taskTime : option string
}.
End Req.

(** The object handed to [new Task({...})], before validation. *)
Module Doc.
Record t : Type := mk {
  _id : ObjectId;
  activity : option string;
  city : option string;
  state : option string;
  country : option string;
  taskDate : Num;
  taskTime : option string;
  createdAt : Z
}.
End Doc.

(** A thrown JavaScript error, with the properties the handlers inspect. *)
Module Err.
Record t : Type := mk {
  name : string;
  code : option string;
  message : string;
  response : option Z;   (* [error.response.status], when [error.response] is set *)
  request : bool         (* whether [error.request] is set *)
}.
End Err.

Definition Error (msg : string) : Err.t := Err.mk "Error" None msg None false.
Definition TypeError (msg : string) : Err.t := Err.mk "TypeError" None msg None false.
Definition CastError (msg : string) : Err.t := Err.mk "CastError" None msg None false.
Definition ValidationError (msg : string) : Err.t :=
  Err.mk "ValidationError" None msg None false.

(** The weather provider's JSON body.  Nested objects may be missing; leaves
    have the types of the provider's contract. *)
Module Owm.
Record main_t : Type := mkMain { temp : Q; feels_like : Q; humidity : Q }.
Record condition : Type := mkCondition { description : string; icon : string }.
Record data : Type := mkData {
  name : string;
  main : option main_t;
  weather : list condition;
  wind : option Q;      (* [wind.speed] *)
  clouds : option Q     (* [clouds.all] *)
}.
End Owm.

Inductive AxiosResult : Type :=
| Resolved (data : Owm.data)
| Rejected (error : Err.t).

(** What the handlers read from the process and its libraries. *)
Record Runtime : Type := mkRuntime {
  OPENWEATHER_API_KEY : option string;
  NODE_ENV : option string;
  Date_now : Z;
  toISOString_now : string;
  process_uptime : Q;
  process_memoryUsage : list (string * Z);
  (* [date.toLocaleDateString('en-US', {weekday, year, month, day})], which
     depends on the host's time zone *)
  toLocaleDateString : Z -> string;
  (* the outcome of [axios.get(url, {signal, timeout})] *)
  axios_get : string -> AxiosResult
}.

(** The state the handlers share. *)
Record World : Type := mkWorld {
  readyState : Z;             (* [mongoose.connection.readyState] *)
  collection : list Task;     (* the stored tasks, in natural order *)
  next_oid : ObjectId;        (* the next ObjectId the driver generates *)
  outbound : list string      (* URLs requested of the provider, latest first *)
}.

(** ** Responses *)

(** The [task] object nested in the weather answer. *)
Module TaskView.
Record t : Type := mk {
  activity : string;
  date : string;
  time : string;
  location : string
}.
End TaskView.

Module WeatherView.
Record t : Type := mk {
  location : string;
  temp : Z;
  feels_like : Z;
  humidity : Q;
  description : string;
  icon : string;
  wind : Q;
  clouds : Q;
  task : TaskView.t
}.
End WeatherView.

Record Health : Type := mkHealth {
  status : string;
  timestamp : string;
  uptime : Q;
  database : string;
  memory : list (string * Z);
  environment : string
}.

Inductive View : Type :=
| home (title : string) (error : option string)
| tasks (title : string) (tasks : list Task) (error : option string)
| add_task (title : string) (error : option string) (task : option Task)
| error_page (title : string) (message : string).

Inductive JsonBody : Type :=
| weather_json (w : WeatherView.t)          (* [{success: true, ...}] *)
| failure_json (error : string)             (* [{success: false, error}] *)
| health_json (h : Health).

Inductive Response : Type :=
| Render (code : Z) (v : View)
| Redirect (url : string)
| Json (code : Z) (b : JsonBody).

(** [res.render] and [res.json] answer 200 unless [res.status] was called. *)
Definition render (v : View) : Response := Render 200 v.
Definition json (b : JsonBody) : Response := Json 200 b.


(** The [success] property of a JSON answer of the weather route. *)
Definition success (b : JsonBody) : option bool :=
  match b with
  | weather_json _ => Some true
  | failure_json _ => Some false
  | health_json _ => None
  end.

(** ** The handler monad: state of the world, and exceptions *)

Definition M (A : Type) : Type := World -> (Err.t + A) * World.

Definition ret {A} (a : A) : M A := fun w => (inr a, w).

Definition bind {A B} (c : M A) (k : A -> M B) : M B :=
  fun w => match c w with
           | (inr a, w') => k a w'
           | (inl e, w') => (inl e, w')
           end.

Definition throw {A} (e : Err.t) : M A := fun w => (inl e, w).

Definition try_catch {A} (c : M A) (h : Err.t -> M A) : M A :=
  fun w => match c w with
           | (inr a, w') => (inr a, w')
           | (inl e, w') => h e w'
           end.

Definition get : M World := fun w => (inr w, w).
Definition put (w : World) : M unit := fun _ => (inr tt, w).

Notation "x <- c ;; k" := (bind c (fun x => k))
  (at level 61, c at next level, right associativity).
Notation "c ;;; k" := (bind c (fun _ => k))
  (at level 61, right associativity).

(** ** The Task model (Mongoose) *)

(** [Task.find().sort({taskDate: 1})]: ascending by [taskDate], documents
    with equal dates in natural order. *)
Fixpoint insert_by_date (t : Task) (l : list Task) : list Task :=
  match l with
  | [] => [t]
  | x :: r =>
      if taskDate t <=? taskDate x then t :: l
      else x :: insert_by_date t r
  end.

Definition sort_by_taskDate (l : list Task) : list Task :=
  fold_right insert_by_date [] l.

Definition Task_find_sort_taskDate : M (list Task) :=
  w <- get ;;
  ret (sort_by_taskDate (collection w)).

Definition has_id (oid : ObjectId) (t : Task) : bool := (_id t =? oid)%N.

(** [Task.findById(id)]: the document or [null]; a CastError when [id] is
    not an ObjectId. *)
Definition Task_findById (id : string) : M (option Task) :=
  match castObjectId id with
  | None => throw (CastError "Cast to ObjectId failed")
  | Some oid =>
      w <- get ;;
      ret (find (has_id oid) (collection w))
  end.

Fixpoint delete_first (oid : ObjectId) (l : list Task) : list Task :=
  match l with
  | [] => []
  | x :: r => if has_id oid x then r else x :: delete_first oid r
  end.

(** [Task.findByIdAndDelete(id)]: removes the document when there is one and
    returns it, [null] otherwise. *)
Definition Task_findByIdAndDelete (id : string) : M (option Task) :=
  match castObjectId id with
  | None => throw (CastError "Cast to ObjectId failed")
  | Some oid =>
      w <- get ;;
      put (mkWorld (readyState w) (delete_first oid (collection w))
                   (next_oid w) (outbound w)) ;;;
      ret (find (has_id oid) (collection w))
  end.

(** [new Task({...})]: the document gets an [_id] and the default
    [createdAt: Date.now].  The id is the driver's; [next_oid] stands for
    the one it gives next, and counting it up for its giving another one
    afterwards. *)
Definition new_Task (rt : Runtime)
    (activity city state country : option string) (taskDate : Num)
    (taskTime : option string) : M Doc.t :=
  w <- get ;;
  put (mkWorld (readyState w) (collection w) (N.succ (next_oid w)) (outbound w)) ;;;
  ret (Doc.mk (next_oid w) activity city state country taskDate taskTime
              (Date_now rt)).

(** A [required] String path: present and of non-zero length. *)
Definition required_string (v : option string) : option string :=
  match v with
  | Some (String c r) => Some (String c r)
  | _ => None
  end.

(** Schema validation ([taskSchema]): the three required strings, and a
    [taskDate] that casts to a Date (an Invalid Date does not). *)
Definition validate (d : Doc.t) : option Task :=
  match required_string (Doc.activity d), required_string (Doc.city d),
        required_string (Doc.country d), Doc.taskDate d with
  | Some a, Some c, Some k, Int t =>
      Some (mkTask (Doc._id d) a c (Doc.state d) k t (Doc.taskTime d)
                   (Doc.createdAt d))
  | _, _, _, _ => None
  end.

(** [doc.save()]: validates, then inserts. *)
Definition save (d : Doc.t) : M unit :=
  match validate d with
  | None => throw (ValidationError "Task validation failed")
  | Some t =>
      w <- get ;;
      put (mkWorld (readyState w) (collection w ++ [t]) (next_oid w) (outbound w))
  end.

(** [axios.get(url, ...)]: one request leaves the process; the promise
    resolves with the provider's data or rejects. *)
Definition axios_get_request (rt : Runtime) (url : string) : M Owm.data :=
  w <- get ;;
  put (mkWorld (readyState w) (collection w) (next_oid w) (url :: outbound w)) ;;;
  match axios_get rt url with
  | Resolved d => ret d
  | Rejected e => throw e
  end.

(** ** Route handlers ([src/index.js]) *)

Definition connected (w : World) : bool := readyState w =? 1.

(** [GET /] *)
Definition get_home : M Response :=
  ret (render (home "TaskWeather Dashboard" None)).

(** [GET /tasks] *)
Definition get_tasks : M Response :=
  try_catch
    (w <- get ;;
     (if negb (connected w) then throw (Error "Database not connected")
      else ret tt) ;;;
     tasks_ <- Task_find_sort_taskDate ;;
     ret (render (tasks "All Tasks" tasks_ None)))
    (fun error =>
       ret (render (tasks "All Tasks" []
              (Some "Database connection failed. Please try again later.")))).

(** [GET /add] *)
Definition get_add : M Response :=
  ret (render (add_task "Add New Task" None None)).

(** The instant [POST /add] computes from the date and time fields.  A
    missing date field makes [split] a TypeError. *)
Definition taskDateObj (body : Req.body) : M Num :=
  match Req.taskDate body with
  | None => throw (TypeError "Cannot read properties of undefined (reading 'split')")
  | Some date_str =>
      let dateParts := split "-" date_str in
      let year := parseInt_value (index dateParts 0) in
      let month := num_sub (parseInt_value (index dateParts 1)) (Int 1) in
      let day := parseInt_value (index dateParts 2) in
      match Req.taskTime body with
      | Some (String c r) =>
          let timeParts := split ":" (String c r) in
          let hours := parseInt_value (index timeParts 0) in
          let minutes := parseInt (or_else (index timeParts 1) "0") in
          ret (Date_UTC year month day hours minutes)
      | _ => ret (Date_UTC3 year month day)
      end
  end.

(** The [try] block of [POST /add]. *)
Definition post_add_try (rt : Runtime) (body : Req.body) : M Response :=
  w <- get ;;
  (if negb (connected w) then throw (Error "Database not connected")
   else ret tt) ;;;
  date <- taskDateObj body ;;
  newTask <- new_Task rt (Req.activity body) (Req.city body) (Req.state body)
               (Req.country body) date
               (match Req.taskTime body with
                | Some (String c r) => Some (String c r)
                | _ => None
                end) ;;
  save newTask ;;;
  ret (Redirect "/tasks").

(** [POST /add] *)
Definition post_add (rt : Runtime) (body : Req.body) : M Response :=
  try_catch (post_add_try rt body)
    (fun error =>
       ret (render (add_task "Add New Task"
              (Some "Failed to add task. Database may be unavailable.") None))).

(** [POST /delete/:id] *)
Definition post_delete (id : string) : M Response :=
  try_catch
    (w <- get ;;
     if negb (connected w) then ret (Redirect "/tasks?error=database")
     else
       Task_findByIdAndDelete id ;;;
       ret (Redirect "/tasks"))
    (fun error => ret (Redirect "/tasks")).

Definition string_of_status (n : Z) : string :=
  NilZero.string_of_int (Z.to_int n).

(** The [catch] branch of the weather route. *)
Definition errorMessage (error : Err.t) : string :=
  if (match Err.code error with Some c => String.eqb c "ECONNABORTED" | None => false end)
     || String.eqb (Err.name error) "AbortError"
  then "Weather request timed out. Please try again."
  else match Err.response error with
       | Some st =>
           if st =? 404 then "Location not found. Please check the city and country."
           else if st =? 401 then "Weather service authentication failed."
           else if st =? 429 then "Too many weather requests. Please wait a moment."
           else "Weather service error: " ++ string_of_status st
       | None =>
           if Err.request error
           then "No response from weather service. Please check your connection."
           else "Could not fetch weather data for this location"
       end.

(** The object built from the provider's answer.  Reading a property of a
    missing nested object is a TypeError. *)
Definition weather_of (rt : Runtime) (task : Task) (data : Owm.data)
  : M WeatherView.t :=
  match Owm.main data, Owm.weather data, Owm.wind data, Owm.clouds data with
  | Some m, c :: _, Some speed, Some all =>
      ret (WeatherView.mk
             (Owm.name data)
             (Math_round (Owm.temp m))
             (Math_round (Owm.feels_like m))
             (Owm.humidity m)
             (Owm.description c)
             ("https://openweathermap.org/img/wn/" ++ Owm.icon c ++ "@2x.png")
             speed
             all
             (TaskView.mk
                (activity task)
                (toLocaleDateString rt (taskDate task))
                (or_else (taskTime task) "All day")
                (city task
                 ++ (match state task with
                     | Some (String c' r) => ", " ++ String c' r
                     | _ => ""
                     end)
                 ++ ", " ++ country task)))
  | _, _, _, _ => throw (TypeError "Cannot read properties of undefined")
  end.

Definition weather_url (task : Task) (apiKey : string) : string :=
  let location := city task ++ "," ++ country task in
  "https://api.openweathermap.org/data/2.5/weather?q="
    ++ encodeURIComponent location ++ "&units=imperial&appid=" ++ apiKey.

(** [GET /weather/:taskId] *)
Definition get_weather (rt : Runtime) (taskId : string) : M Response :=
  try_catch
    (w <- get ;;
     if negb (connected w) then ret (json (failure_json "Database not available"))
     else
       task <- Task_findById taskId ;;
       match task with
       | None => ret (json (failure_json "Task not found"))
       | Some task =>
           match OPENWEATHER_API_KEY rt with
           | Some (String c r) =>
               let apiKey := String c r in
               data <- axios_get_request rt (weather_url task apiKey) ;;
               weather <- weather_of rt task data ;;
               ret (json (weather_json weather))
           | _ => ret (json (failure_json "Weather service configuration error"))
           end
       end)
    (fun error => ret (json (failure_json (errorMessage error)))).

(** [GET /health] *)
Definition get_health (rt : Runtime) : M Response :=
  w <- get ;;
  ret (Json 200 (health_json
         (mkHealth "healthy"
                   (toISOString_now rt)
                   (process_uptime rt)
                   (if readyState w =? 1 then "connected" else "disconnected")
                   (process_memoryUsage rt)
                   (or_else (NODE_ENV rt) "development")))).

(** The fall-through middleware. *)
Definition not_found : M Response :=
  ret (Render 404 (error_page "Page Not Found"
                     "The page you are looking for does not exist.")).

Inductive Request : Type :=
| GET_home
| GET_tasks
| GET_add
| POST_add (body : Req.body)
| POST_delete (id : string)
| GET_weather (taskId : string)
| GET_health
| Unrouted
| Unparsed.

(** A request's way through the application.  [Unrouted] is a request no
    route matches.  [Unparsed] is a request that fails before any route: the
    body parsers ([express.urlencoded], [express.json]) or the decoding of a
    route parameter pass an error on, the routes and the fall-through are
    skipped, and the error middleware answers. *)
Definition route (rt : Runtime) (req : Request) : M Response :=
  match req with
  | GET_home => get_home
  | GET_tasks => get_tasks
  | GET_add => get_add
  | POST_add body => post_add rt body
  | POST_delete id => post_delete id
  | GET_weather taskId => get_weather rt taskId
  | GET_health => get_health rt
  | Unrouted => not_found
  | Unparsed => throw (Error "request could not be parsed")
  end.

(** One request served: an error passed on before the routes, or an
    exception that escapes a handler, reaches the error middleware, which
    answers 500. *)
Definition serve (rt : Runtime) (req : Request) (w : World) : Response * World :=
  match route rt req w with
  | (inr r, w') => (r, w')
  | (inl _, w') =>
      (Render 500 (error_page "Server Error"
         "Something went wrong on our end. Please try again later."), w')
  end.

(** Events that move the world: a request served, or the driver reporting a
    change of the connection's state. *)
Inductive Event : Type :=
| Served (rt : Runtime) (req : Request)
| Connection (readyState : Z).

Definition step (ev : Event) (w : World) : World :=
  match ev with
  | Served rt req => snd (serve rt req w)
  | Connection st => mkWorld st (collection w) (next_oid w) (outbound w)
  end.

Definition run (evs : list Event) (w : World) : World :=
  fold_left (fun w ev => step ev w) evs w.

(** The world when the process starts: not connected, nothing stored. *)
Definition boot : World := mkWorld 0 [] 0%N [].

(** ** The specification's notions *)

Module Spec.

Definition is_digit (c : ascii) : bool :=
  let n := Z.of_nat (nat_of_ascii c) in (48 <=? n) && (n <=? 57).

Definition digit (c : ascii) : Z := Z.of_nat (nat_of_ascii c) - 48.

Definition leap (y : Z) : bool :=
  ((y mod 4 =? 0) && negb (y mod 100 =? 0)) || (y mod 400 =? 0).

Definition days_in_month (y m : Z) : Z :=
  match m with
  | 2 => if leap y then 29 else 28
  | 4 | 6 | 9 | 11 => 30
  | _ => 31
  end.

(** A date string of the shape YYYY-MM-DD that denotes a calendar date, and
    the date it denotes. *)
Definition iso_date (s : string) : option (Z * Z * Z) :=
  match list_ascii_of_string s with
  | [y1; y2; y3; y4; h1; m1; m2; h2; d1; d2] =>
      if Ascii.eqb h1 "-" && Ascii.eqb h2 "-"
         && forallb is_digit [y1; y2; y3; y4; m1; m2; d1; d2]
      then
        let y := 1000 * digit y1 + 100 * digit y2 + 10 * digit y3 + digit y4 in
        let m := 10 * digit m1 + digit m2 in
        let d := 10 * digit d1 + digit d2 in
        if (1 <=? m) && (m <=? 12) && (1 <=? d) && (d <=? days_in_month y m)
        then Some (y, m, d)
        else None
      else None
  | _ => None
  end.

(** A time string HH:MM, or HH with the minutes omitted. *)
Definition iso_time (s : string) : option (Z * Z) :=
  match list_ascii_of_string s with
  | [h1; h2; c; m1; m2] =>
      if Ascii.eqb c ":" && forallb is_digit [h1; h2; m1; m2]
      then
        let h := 10 * digit h1 + digit h2 in
        let mi := 10 * digit m1 + digit m2 in
        if (h <=? 23) && (mi <=? 59) then Some (h, mi) else None
      else None
  | [h1; h2] =>
      if forallb is_digit [h1; h2]
      then
        let h := 10 * digit h1 + digit h2 in
        if h <=? 23 then Some (h, 0) else None
      else None
  | _ => None
  end.

(** Days from 1 March of year 0 to 1 March of year [y'], by 400-year eras
    of 146097 days. *)
Definition era_days (y' : Z) : Z :=
  let era := y' / 400 in
  let yoe := y' - era * 400 in
  era * 146097 + yoe * 365 + yoe / 4 - yoe / 100.

(** Days from 1 March to the first of month [m], in a year that starts in
    March. *)
Definition march_days (m : Z) : Z := (153 * ((m + 9) mod 12) + 2) / 5.

(** Days from 1970-01-01 to the date [y]-[m]-[d] of the proleptic Gregorian
    calendar; January and February count with the year before. *)
Definition days_from_civil (y m d : Z) : Z :=
  era_days (if m <=? 2 then y - 1 else y) + march_days m + d - 1 - 719468.

(** The UTC instant, in milliseconds since the epoch, of a date and a time
    of day. *)
Definition utc_instant (y m d h mi : Z) : Z :=
  days_from_civil y m d * 86400000 + h * 3600000 + mi * 60000.

(** The instant expected of a valid input: midnight when no time is given. *)
Definition expected_instant (date : Z * Z * Z) (time : option (Z * Z)) : Z :=
  let '(y, m, d) := date in
  match time with
  | Some (h, mi) => utc_instant y m d h mi
  | None => utc_instant y m d 0 0
  end.

(** The page [POST /add] renders when it fails. *)
Definition add_failed : Response :=
  Render 200 (add_task "Add New Task"
                (Some "Failed to add task. Database may be unavailable.") None).

(** Instants a Date can hold. *)
Definition valid_instant (t : Z) : Prop := Z.abs t <= 8640000000000000.

(** What the data model promises of a stored task. *)
Definition stored_ok (t : Task) : Prop :=
  activity t <> "" /\ city t <> "" /\ country t <> "" /\ valid_instant (taskDate t).

(** The failure kinds of a weather lookup. *)
Inductive failure : Type :=
| store_unavailable
| task_not_found
| config_missing
| timed_out
| upstream_status (code : Z)
| no_response
| unclassified.

(** The fixed reason reported for each kind. *)
Definition reason (k : failure) : string :=
  match k with
  | store_unavailable => "Database not available"
  | task_not_found => "Task not found"
  | config_missing => "Weather service configuration error"
  | timed_out => "Weather request timed out. Please try again."
  | upstream_status code =>
      if code =? 404 then "Location not found. Please check the city and country."
      else if code =? 401 then "Weather service authentication failed."
      else if code =? 429 then "Too many weather requests. Please wait a moment."
      else "Weather service error: " ++ string_of_status code
  | no_response => "No response from weather service. Please check your connection."
  | unclassified => "Could not fetch weather data for this location"
  end.

(** Whether the HTTP client reports the request as aborted or timed out. *)
Definition aborted (e : Err.t) : bool :=
  String.eqb (Err.name e) "AbortError"
  || match Err.code e with
     | Some c => String.eqb c "ECONNABORTED"
     | None => false
     end.

(** The kind of a rejected request, read off the error as the HTTP client
    reports it: aborted or timed out, answered with a status, sent but not
    answered, or none of these. *)
Definition kind_of (e : Err.t) : failure :=
  if aborted e then timed_out
  else match Err.response e, Err.request e with
       | Some code, _ => upstream_status code
       | None, true => no_response
       | None, false => unclassified
       end.

(** [n] is an integer nearest to [x]. *)
Definition nearest (x : Q) (n : Z) : Prop :=
  forall k : Z, (Qabs (x - inject_Z n) <= Qabs (x - inject_Z k))%Q.

(** The time of day shown for a task: the stored text, or "All day" when
    there is none. *)
Definition time_label (t : Task) : string :=
  match taskTime t with
  | Some s => if String.eqb s "" then "All day" else s
  | None => "All day"
  end.

(** A date field from which no year, month and day can be read: it is
    absent, or one of its first three pieces between hyphens does not start
    with an integer. *)
Definition unreadable_date (v : option string) : Prop :=
  match v with
  | None => True
  | Some s =>
      exists i, (i < 3)%nat /\ parseInt_value (index (split "-" s) i) = NaN
  end.

(** The optional time field of a valid input: absent or empty for no time,
    or a time string. [None] when the field is not valid. *)
Definition time_field (v : option string) : option (option (Z * Z)) :=
  match v with
  | None => Some None
  | Some EmptyString => Some None
  | Some ts => option_map Some (iso_time ts)
  end.

(** City, state when there is one, and country, joined with commas. *)
Definition place (t : Task) : string :=
  String.concat ", "
    ([city t]
     ++ (if truthy (state t) then [or_else (state t) ""] else [])
     ++ [country t]).

(** The six kinds the specification lists for a failed request. *)
Definition listed (k : failure) : Prop :=
  match k with
  | timed_out | upstream_status _ | no_response => True
  | _ => False
  end.

End Spec.



(** ** Notions used in the statements *)

(** The order of the listing. *)
Definition by_date (a b : Task) : Prop := taskDate a <= taskDate b.

(** The answers of [n] successive [POST /delete/:id] with the same [id],
    and the world after them. *)
Fixpoint repeat_delete (n : nat) (id : string) (w : World)
  : list (Err.t + Response) * World :=
  match n with
  | O => ([], w)
  | S k =>
      let '(r, w') := post_delete id w in
      let '(rs, w'') := repeat_delete k id w' in
      (r :: rs, w'')
  end.

(** No stored task has the id the string denotes. *)
Definition absent (id : string) (w : World) : Prop :=
  forall t, In t (collection w) -> castObjectId id <> Some (_id t).

(** Every stored task is as the data model promises. *)
Definition store_ok (w : World) : Prop := Forall Spec.stored_ok (collection w).

(** The world once a request for [url] has left the process. *)
Definition requested (url : string) (w : World) : World :=
  mkWorld (readyState w) (collection w) (next_oid w) (url :: outbound w).

(** ** Sample inputs *)

Module Sample.

Definition data : Owm.data :=
  Owm.mkData "College Park"
    (Some (Owm.mkMain (7249 # 100) (6950 # 100) (40 # 1)))
    [Owm.mkCondition "clear sky" "01d"]
    (Some (57 # 10)) (Some (0 # 1)).

Definition rt : Runtime :=
  mkRuntime (Some "k3y") None 1700000000000 "2023-11-14T22:13:20.000Z"
            (12 # 1) [] (fun _ => "Fri, Mar 1, 2024") (fun _ => Resolved data).

Definition form (date : string) (time : option string) : Req.body :=
  Req.mkBody (Some "Picnic") (Some "College Park") (Some "MD") (Some "US")
             (Some date) time.

(** The store after connecting and adding three tasks. *)
Definition three_tasks : World :=
  run [Connection 1;
       Served rt (POST_add (form "2024-03-01" None));
       Served rt (POST_add (form "2024-01-15" (Some "09:30")));
       Served rt (POST_add (form "2024-02-10" None))] boot.

(** A provider answer with an empty [weather] array. *)
Definition data_no_conditions : Owm.data :=
  Owm.mkData "College Park"
    (Some (Owm.mkMain (7249 # 100) (6950 # 100) (40 # 1)))
    [] (Some (57 # 10)) (Some (0 # 1)).

Definition rt_no_conditions : Runtime :=
  mkRuntime (Some "k3y") None 1700000000000 "2023-11-14T22:13:20.000Z"
            (12 # 1) [] (fun _ => "Fri, Mar 1, 2024")
            (fun _ => Resolved data_no_conditions).

(** The provider answers 503. *)
Definition rt_503 : Runtime :=
  mkRuntime (Some "k3y") None 1700000000000 "2023-11-14T22:13:20.000Z"
            (12 # 1) [] (fun _ => "Fri, Mar 1, 2024")
            (fun _ => Rejected (Err.mk "AxiosError" (Some "ERR_BAD_RESPONSE")
                                  "Request failed with status code 503"
                                  (Some 503) true)).


(** A connected, empty store. *)
Definition empty_store : World := mkWorld 1 [] 0%N [].

(** The id of the first stored task, and an id no task has. *)
Definition id0 : string := "000000000000000000000000".
Definition id7 : string := "000000000000000000000007".

(** The first of the three tasks, as stored. *)
Definition picnic : Task :=
  mkTask 0%N "Picnic" "College Park" (Some "MD") "US" 1709251200000 None
         1700000000000.

End Sample.

(** ** Notions of the further properties *)


(** [l'] is [l] with one element taken out. *)
Definition one_removed (l l' : list Task) : Prop :=
  exists l1 t l2, l = (l1 ++ t :: l2)%list /\ l' = (l1 ++ l2)%list.

(** What each route answers when the store is not connected. *)
Definition disconnected_answer (rt : Runtime) (req : Request) (w : World) : Response :=
  match req with
  | GET_home => Render 200 (home "TaskWeather Dashboard" None)
  | GET_tasks =>
      Render 200 (tasks "All Tasks" []
                    (Some "Database connection failed. Please try again later."))
  | GET_add => Render 200 (add_task "Add New Task" None None)
  | POST_add _ => Spec.add_failed
  | POST_delete _ => Redirect "/tasks?error=database"
  | GET_weather _ => Json 200 (failure_json "Database not available")
  | GET_health =>
      Json 200 (health_json
                  (mkHealth "healthy" (toISOString_now rt) (process_uptime rt)
                            "disconnected" (process_memoryUsage rt)
                            (or_else (NODE_ENV rt) "development")))
  | Unrouted =>
      Render 404 (error_page "Page Not Found"
                    "The page you are looking for does not exist.")
  | Unparsed =>
      Render 500 (error_page "Server Error"
                    "Something went wrong on our end. Please try again later.")
  end.

(** The time field as [POST /add] stores it: the text, or [null] when the
    field is absent or empty. *)
Definition stored_time (v : option string) : option string :=
  if truthy v then v else None.

(** The tasks other than the one of id [oid]. *)
Definition without (oid : ObjectId) (l : list Task) : list Task :=
  filter (fun t => negb (has_id oid t)) l.

(** The characters [encodeURIComponent] can produce: the unreserved ones and
    the percent sign. *)
Definition query_safe (c : ascii) : Prop :=
  is_uri_unreserved c = true \/ c = "%"%char.

(** A date field written as four digits, two digits and two digits between
    hyphens, and the three numbers, whatever they are. *)
Definition digits_date (s : string) : option (Z * Z * Z) :=
  match list_ascii_of_string s with
  | [y1; y2; y3; y4; h1; m1; m2; h2; d1; d2] =>
      if Ascii.eqb h1 "-" && Ascii.eqb h2 "-"
         && forallb Spec.is_digit [y1; y2; y3; y4; m1; m2; d1; d2]
      then Some (1000 * Spec.digit y1 + 100 * Spec.digit y2 + 10 * Spec.digit y3
                 + Spec.digit y4,
                 10 * Spec.digit m1 + Spec.digit m2,
                 10 * Spec.digit d1 + Spec.digit d2)
      else None
  | _ => None
  end.

(** A time field written as two digits, a colon and two digits, and the two
    numbers, whatever they are; no time for an absent or empty field. *)
Definition digits_time (v : option string) : option (Z * Z) :=
  match v with
  | None => Some (0, 0)
  | Some ts =>
      match list_ascii_of_string ts with
      | [] => Some (0, 0)
      | [h1; h2; c; m1; m2] =>
          if Ascii.eqb c ":" && forallb Spec.is_digit [h1; h2; m1; m2]
          then Some (10 * Spec.digit h1 + Spec.digit h2,
                     10 * Spec.digit m1 + Spec.digit m2)
          else None
      | _ => None
      end
  end.

(** The instant of year [y], month number [m], day number [d], [h] hours and
    [mi] minutes when the numbers are not held to the calendar: months past
    December count into the following years, and days, hours and minutes are
    added to the first of the month. *)
Definition carried_instant (y m d h mi : Z) : Z :=
  Spec.utc_instant (y + (m - 1) / 12) ((m - 1) mod 12 + 1) 1 0 0
  + (d - 1) * 86400000 + h * 3600000 + mi * 60000.

(** Text that does not go on with a digit: empty, or starting with another
    character. *)
Definition no_leading_digit (s : string) : Prop :=
  match s with
  | EmptyString => True
  | String c _ => Spec.is_digit c = false
  end.

(** The form [body] with another date field. *)
Definition with_date (body : Req.body) (date : string) : Req.body :=
  Req.mkBody (Req.activity body) (Req.city body) (Req.state body)
             (Req.country body) (Some date) (Req.taskTime body).

(** ** The failures of a weather lookup *)

(** An error the HTTP client marks as timed out or aborted. *)
Definition timed_out_error (e : Err.t) : Prop :=
  Err.code e = Some "ECONNABORTED" \/ Err.name e = "AbortError".

(** The fixed reason given for a rejected request, by what the error
    carries: the mark of a timeout, the status of an answer, or a request
    without an answer. *)
Inductive rejection_reason (e : Err.t) : string -> Prop :=
| rejected_timeout :
    timed_out_error e ->
    rejection_reason e "Weather request timed out. Please try again."
| rejected_404 :
    ~ timed_out_error e -> Err.response e = Some 404 ->
    rejection_reason e "Location not found. Please check the city and country."
| rejected_401 :
    ~ timed_out_error e -> Err.response e = Some 401 ->
    rejection_reason e "Weather service authentication failed."
| rejected_429 :
    ~ timed_out_error e -> Err.response e = Some 429 ->
    rejection_reason e "Too many weather requests. Please wait a moment."
| rejected_status (st : Z) :
    ~ timed_out_error e -> Err.response e = Some st ->
    st <> 404 -> st <> 401 -> st <> 429 ->
    rejection_reason e ("Weather service error: " ++ string_of_status st)
| rejected_unanswered :
    ~ timed_out_error e -> Err.response e = None -> Err.request e = true ->
    rejection_reason e
      "No response from weather service. Please check your connection."
| rejected_otherwise :
    ~ timed_out_error e -> Err.response e = None -> Err.request e = false ->
    rejection_reason e "Could not fetch weather data for this location".

(** A provider answer from which the view cannot be built. *)
Definition unmapped (d : Owm.data) : Prop :=
  Owm.main d = None \/ Owm.weather d = [] \/ Owm.wind d = None
  \/ Owm.clouds d = None.

(** The fixed reason given when the lookup of the stored task [task] fails:
    the store is not connected, no credential is configured, the request is
    rejected, or the provider's answer cannot be mapped. *)
Inductive lookup_failure (rt : Runtime) (task : Task) (w : World)
  : string -> Prop :=
| failed_store :
    connected w = false ->
    lookup_failure rt task w "Database not available"
| failed_credential :
    connected w = true ->
    truthy (OPENWEATHER_API_KEY rt) = false ->
    lookup_failure rt task w "Weather service configuration error"
| failed_request (key : string) (e : Err.t) (msg : string) :
    connected w = true ->
    OPENWEATHER_API_KEY rt = Some key -> key <> "" ->
    axios_get rt (weather_url task key) = Rejected e ->
    rejection_reason e msg ->
    lookup_failure rt task w msg
| failed_answer (key : string) (d : Owm.data) :
    connected w = true ->
    OPENWEATHER_API_KEY rt = Some key -> key <> "" ->
    axios_get rt (weather_url task key) = Resolved d ->
    unmapped d ->
    lookup_failure rt task w "Could not fetch weather data for this location".

(** ** Dates that give no instant *)

(** The date and time fields give no valid instant: the date field is
    absent, or [Date.UTC] of the numbers read from the fields is [NaN]. *)
Definition no_instant (body : Req.body) (w : World) : Prop :=
  forall t, fst (taskDateObj body w) <> inr (Int t).

(** The hours and minutes read from the time field, where there are any,
    are below 2^31 in magnitude.  Within this bound the sums of [Date.UTC]
    are the same in integers as in the engine's doubles. *)
Definition time_in_bounds (v : option string) : Prop :=
  match v with
  | Some ts =>
      (forall h, parseInt_value (index (split ":" ts) 0) = Int h ->
                 Z.abs h < 2147483648)
      /\ (forall mi, parseInt (or_else (index (split ":" ts) 1) "0") = Int mi ->
                     Z.abs mi < 2147483648)
  | None => True
  end.

(** * Properties *)

(** ** Listing: [GET /tasks] *)

Lemma insert_by_date_perm (t : Task) (l : list Task) :
  Permutation (insert_by_date t l) (t :: l).
Proof.
  induction l as [|x r IH]; simpl.
  - reflexivity.
  - destruct (taskDate t <=? taskDate x).
    + reflexivity.
    + rewrite IH. apply perm_swap.
Qed.

Lemma sort_by_taskDate_perm (l : list Task) :
  Permutation (sort_by_taskDate l) l.
Proof.
  induction l as [|x r IH]; simpl.
  - constructor.
  - rewrite insert_by_date_perm. now constructor.
Qed.

Lemma insert_by_date_hd (t x : Task) (l : list Task) :
  by_date x t -> HdRel by_date x l -> HdRel by_date x (insert_by_date t l).
Proof.
  intros Hxt Hhd. destruct l as [|y r]; simpl.
  - now constructor.
  - destruct (taskDate t <=? taskDate y); constructor; trivial.
    now inversion Hhd.
Qed.

Lemma insert_by_date_sorted (t : Task) (l : list Task) :
  Sorted by_date l -> Sorted by_date (insert_by_date t l).
Proof.
  induction 1 as [|x r Hs IH Hhd]; simpl.
  - repeat constructor.
  - destruct (taskDate t <=? taskDate x) eqn:E.
    + constructor.
      * now constructor.
      * constructor. unfold by_date. lia.
    + constructor; trivial.
      apply insert_by_date_hd; trivial. unfold by_date. lia.
Qed.

Lemma sort_by_taskDate_sorted (l : list Task) :
  StronglySorted by_date (sort_by_taskDate l).
Proof.
  apply Sorted_StronglySorted.
  - intros a b c. unfold by_date. lia.
  - induction l as [|x r IH]; simpl.
    + constructor.
    + now apply insert_by_date_sorted.
Qed.

(** Equal dates keep the natural order: a document is placed before the
    first one that is not earlier than it. *)
Lemma insert_by_date_tie (t x : Task) (l : list Task) :
  taskDate t = taskDate x -> insert_by_date t (x :: l) = t :: x :: l.
Proof.
  intros E. simpl. rewrite E, Z.leb_refl. reflexivity.
Qed.

Lemma insert_by_date_filter (d : Z) (t : Task) (l : list Task) :
  filter (fun x => taskDate x =? d) (insert_by_date t l)
  = filter (fun x => taskDate x =? d) (t :: l).
Proof.
  induction l as [|x r IH]; [reflexivity|].
  cbn [insert_by_date].
  destruct (Z.leb_spec (taskDate t) (taskDate x)) as [Hle|Hgt]; [reflexivity|].
  cbn [filter] in *. rewrite IH.
  destruct (Z.eqb_spec (taskDate t) d) as [Et|Et];
    destruct (Z.eqb_spec (taskDate x) d) as [Ex|Ex]; try reflexivity.
  lia.
Qed.

(** The listing is stable: tasks of one date come in their natural order. *)
Lemma sort_by_taskDate_stable (d : Z) (l : list Task) :
  filter (fun x => taskDate x =? d) (sort_by_taskDate l)
  = filter (fun x => taskDate x =? d) l.
Proof.
  induction l as [|x r IH]; [reflexivity|].
  cbn [sort_by_taskDate fold_right].
  rewrite insert_by_date_filter. cbn [filter].
  fold (sort_by_taskDate r). now rewrite IH.
Qed.

(** C5. With the store connected, [GET /tasks] renders every stored task,
    each once, ordered by [taskDate] ascending, with no error; an empty store
    gives the empty list. The store is left as it was. *)
Theorem get_tasks_sorted_by_date (w : World) :
  connected w = true ->
  exists l,
    get_tasks w = (inr (render (tasks "All Tasks" l None)), w)
    /\ Permutation l (collection w)
    /\ StronglySorted by_date l
    /\ (collection w = [] -> l = []).
Proof.
  intros Hc. exists (sort_by_taskDate (collection w)).
  repeat split.
  - unfold get_tasks, try_catch, bind, get, Task_find_sort_taskDate, bind, get, ret.
    rewrite Hc. reflexivity.
  - apply sort_by_taskDate_perm.
  - apply sort_by_taskDate_sorted.
  - intros ->. reflexivity.
Qed.

(** C7. With the store disconnected, [GET /tasks] renders the empty list
    together with the error message, and no exception leaves the handler. *)
Theorem get_tasks_disconnected (w : World) :
  readyState w <> 1 ->
  get_tasks w =
    (inr (Render 200 (tasks "All Tasks" []
            (Some "Database connection failed. Please try again later."))), w).
Proof.
  intros Hn.
  unfold get_tasks, try_catch, bind, get, connected.
  destruct (readyState w =? 1) eqn:E.
  - apply Z.eqb_eq in E. contradiction.
  - reflexivity.
Qed.

Example three_tasks_listed :
  exists l, fst (get_tasks Sample.three_tasks) = inr (render (tasks "All Tasks" l None))
    /\ map taskDate l = [1705311000000; 1707523200000; 1709251200000].
Proof. eexists. split; reflexivity. Qed.

Lemma get_tasks_sorted_by_date_witness :
  connected Sample.three_tasks = true /\
  exists l,
    get_tasks Sample.three_tasks = (inr (render (tasks "All Tasks" l None)), Sample.three_tasks)
    /\ Permutation l (collection Sample.three_tasks)
    /\ StronglySorted by_date l
    /\ (collection Sample.three_tasks = [] -> l = []).
Proof.
  split; [reflexivity | apply (get_tasks_sorted_by_date Sample.three_tasks); reflexivity].
Defined.

Lemma get_tasks_disconnected_witness :
  readyState boot <> 1 /\
  get_tasks boot =
    (inr (Render 200 (tasks "All Tasks" []
            (Some "Database connection failed. Please try again later."))), boot).
Proof.
  split; [discriminate | apply (get_tasks_disconnected boot); discriminate].
Defined.

(** ** Deleting: [POST /delete/:id] *)

Lemma post_delete_connected (id : string) (w : World) :
  connected w = true ->
  post_delete id w =
    (inr (Redirect "/tasks"),
     match castObjectId id with
     | Some oid => mkWorld (readyState w) (delete_first oid (collection w))
                           (next_oid w) (outbound w)
     | None => w
     end).
Proof.
  intros Hc.
  unfold post_delete, try_catch, bind, get, Task_findByIdAndDelete.
  rewrite Hc. simpl.
  destruct (castObjectId id); reflexivity.
Qed.

Lemma delete_first_absent (oid : ObjectId) (l : list Task) :
  (forall t, In t l -> Some oid <> Some (_id t)) -> delete_first oid l = l.
Proof.
  induction l as [|x r IH]; intros H; simpl.
  - reflexivity.
  - unfold has_id. destruct (N.eqb_spec (_id x) oid) as [E|E].
    + exfalso. apply (H x); [now left | now rewrite E].
    + f_equal. apply IH. intros t Ht. apply H. now right.
Qed.


(** C8. With the store connected, deleting by id is answered with the
    redirect to the list whether or not a task has that id, any number of
    times in a row, never with an exception; when no task has the id the
    stored tasks are left as they were. *)
Theorem post_delete_idempotent (id : string) (n : nat) (w : World) :
  connected w = true ->
  Forall (fun r => r = inr (Redirect "/tasks")) (fst (repeat_delete n id w))
  /\ (absent id w -> collection (snd (repeat_delete n id w)) = collection w).
Proof.
  revert w. induction n as [|k IH]; intros w Hc; simpl.
  - split; [constructor | reflexivity].
  - rewrite (post_delete_connected id w Hc).
    set (w' := match castObjectId id with Some _ => _ | None => w end).
    assert (Hc' : connected w' = true).
    { subst w'. destruct (castObjectId id); exact Hc. }
    destruct (IH w' Hc') as [Hall Hkeep].
    destruct (repeat_delete k id w') as [rs w''] eqn:E. simpl in *.
    split.
    + constructor; [reflexivity | exact Hall].
    + intros Habs.
      assert (Hw' : collection w' = collection w).
      { subst w'. destruct (castObjectId id) as [oid|] eqn:Ec; [|reflexivity].
        simpl. apply delete_first_absent. intros t Ht.
        rewrite <- Ec. now apply Habs. }
      rewrite <- Hw'. apply Hkeep.
      intros t Ht. rewrite Hw' in Ht. now apply Habs.
Qed.

Lemma post_delete_idempotent_witness :
  connected Sample.three_tasks = true /\
  Forall (fun r => r = inr (Redirect "/tasks"))
         (fst (repeat_delete 3 Sample.id7 Sample.three_tasks))
  /\ (absent Sample.id7 Sample.three_tasks ->
      collection (snd (repeat_delete 3 Sample.id7 Sample.three_tasks))
      = collection Sample.three_tasks).
Proof.
  split; [reflexivity | apply (post_delete_idempotent Sample.id7 3 Sample.three_tasks); reflexivity].
Defined.

Example delete_existing_then_again :
  map _id (collection (snd (repeat_delete 1 Sample.id0 Sample.three_tasks))) = [1; 2]%N
  /\ map _id (collection (snd (repeat_delete 2 Sample.id0 Sample.three_tasks))) = [1; 2]%N
  /\ fst (repeat_delete 2 "not-an-id" Sample.three_tasks)
     = [inr (Redirect "/tasks"); inr (Redirect "/tasks")].
Proof. repeat split; reflexivity. Qed.

(** ** Health: [GET /health] *)

(** C10. [GET /health] answers 200 with [status] "healthy" in every state of
    the connection; only the [database] field tells whether the store is
    connected. *)
Theorem get_health_always_healthy (rt : Runtime) (w : World) :
  exists h,
    get_health rt w = (inr (Json 200 (health_json h)), w)
    /\ status h = "healthy"
    /\ database h = (if readyState w =? 1 then "connected" else "disconnected").
Proof.
  eexists. repeat split.
Qed.

(** ** Weather: [GET /weather/:taskId] *)

Lemma get_weather_found (rt : Runtime) (w : World) (taskId : string)
    (oid : ObjectId) (task : Task) (c : ascii) (r : string) :
  connected w = true ->
  castObjectId taskId = Some oid ->
  find (has_id oid) (collection w) = Some task ->
  OPENWEATHER_API_KEY rt = Some (String c r) ->
  get_weather rt taskId w =
    let url := weather_url task (String c r) in
    (inr (json
       match axios_get rt url with
       | Resolved d =>
           match fst (weather_of rt task d (requested url w)) with
           | inr v => weather_json v
           | inl e => failure_json (errorMessage e)
           end
       | Rejected e => failure_json (errorMessage e)
       end), requested url w).
Proof.
  intros Hc Hid Hf Hk.
  unfold get_weather, try_catch, bind, get, Task_findById.
  rewrite Hc, Hid. simpl. unfold bind, get, ret. rewrite Hf, Hk.
  unfold axios_get_request, bind, get, put. fold (requested (weather_url task (String c r)) w).
  cbv zeta.
  destruct (axios_get rt (weather_url task (String c r))) as [d|e].
  - unfold ret at 1. unfold weather_of.
    destruct (Owm.main d), (Owm.weather d), (Owm.wind d), (Owm.clouds d);
      reflexivity.
  - reflexivity.
Qed.

Lemma errorMessage_reason (e : Err.t) :
  errorMessage e = Spec.reason (Spec.kind_of e).
Proof.
  unfold errorMessage, Spec.kind_of, Spec.aborted.
  rewrite (orb_comm (String.eqb (Err.name e) "AbortError")).
  destruct (_ || _).
  - reflexivity.
  - destruct (Err.response e) as [st|]; [reflexivity|].
    destruct (Err.request e); reflexivity.
Qed.

Example errorMessage_cases :
  errorMessage (Err.mk "AxiosError" (Some "ECONNABORTED") "timeout of 10000ms exceeded"
                       None true)
  = "Weather request timed out. Please try again."
  /\ errorMessage (Err.mk "AxiosError" (Some "ERR_BAD_REQUEST")
                          "Request failed with status code 404" (Some 404) true)
     = "Location not found. Please check the city and country."
  /\ errorMessage (Err.mk "AxiosError" (Some "ERR_BAD_REQUEST")
                          "Request failed with status code 401" (Some 401) true)
     = "Weather service authentication failed."
  /\ errorMessage (Err.mk "AxiosError" (Some "ERR_BAD_REQUEST")
                          "Request failed with status code 429" (Some 429) true)
     = "Too many weather requests. Please wait a moment."
  /\ errorMessage (Err.mk "AxiosError" (Some "ENOTFOUND")
                          "getaddrinfo ENOTFOUND api.openweathermap.org" None true)
     = "No response from weather service. Please check your connection.".
Proof. repeat split. Qed.

(** The text of the error plays no part in the reason. *)
Lemma errorMessage_ignores_text (e : Err.t) (text : string) :
  errorMessage (Err.mk (Err.name e) (Err.code e) text (Err.response e) (Err.request e))
  = errorMessage e.
Proof. reflexivity. Qed.

Lemma weather_of_throws_TypeError (rt : Runtime) (task : Task) (d : Owm.data)
    (w : World) (e : Err.t) :
  fst (weather_of rt task d w) = inl e ->
  errorMessage e = Spec.reason Spec.unclassified.
Proof.
  unfold weather_of.
  destruct (Owm.main d), (Owm.weather d), (Owm.wind d), (Owm.clouds d);
    simpl; intros H; inversion H; reflexivity.
Qed.

Lemma get_weather_not_found (rt : Runtime) (w : World) (taskId : string)
    (oid : ObjectId) :
  connected w = true ->
  castObjectId taskId = Some oid ->
  find (has_id oid) (collection w) = None ->
  get_weather rt taskId w = (inr (Json 200 (failure_json "Task not found")), w).
Proof.
  intros Hc Hid Hf.
  unfold get_weather, try_catch, bind, get, Task_findById.
  rewrite Hc, Hid. simpl. unfold bind, get, ret. rewrite Hf. reflexivity.
Qed.

Lemma get_weather_no_key (rt : Runtime) (w : World) (taskId : string)
    (oid : ObjectId) (task : Task) :
  connected w = true ->
  castObjectId taskId = Some oid ->
  find (has_id oid) (collection w) = Some task ->
  truthy (OPENWEATHER_API_KEY rt) = false ->
  get_weather rt taskId w
  = (inr (Json 200 (failure_json "Weather service configuration error")), w).
Proof.
  intros Hc Hid Hf Hk.
  unfold get_weather, try_catch, bind, get, Task_findById.
  rewrite Hc, Hid. simpl. unfold bind, get, ret. rewrite Hf.
  destruct (OPENWEATHER_API_KEY rt) as [[|c r]|]; try reflexivity.
  discriminate Hk.
Qed.

Lemma timed_out_error_test (e : Err.t) :
  (match Err.code e with
   | Some c => String.eqb c "ECONNABORTED"
   | None => false
   end || String.eqb (Err.name e) "AbortError") = true
  <-> timed_out_error e.
Proof.
  unfold timed_out_error. rewrite orb_true_iff, String.eqb_eq.
  destruct (Err.code e) as [c|].
  - rewrite String.eqb_eq. split; intros [H|H]; auto; [left; now subst | left; congruence].
  - split; intros [H|H]; auto; discriminate.
Qed.

Lemma rejection_reason_errorMessage (e : Err.t) (msg : string) :
  rejection_reason e msg <-> msg = errorMessage e.
Proof.
  unfold errorMessage.
  pose proof (timed_out_error_test e) as Ht.
  destruct (_ || _) eqn:Eb.
  - assert (Hto : timed_out_error e) by now apply Ht.
    split.
    + intros H. inversion H; subst; trivial; contradiction.
    + intros ->. now constructor.
  - assert (Hto : ~ timed_out_error e).
    { intros H. apply Ht in H. discriminate. }
    destruct (Err.response e) as [st|] eqn:Er.
    + destruct (Z.eqb_spec st 404) as [->|N4];
        [|destruct (Z.eqb_spec st 401) as [->|N1];
          [|destruct (Z.eqb_spec st 429) as [->|N9]]].
      * split; [|intros ->; now constructor].
        intros H. inversion H; subst; try contradiction; try congruence.
      * split; [|intros ->; now constructor].
        intros H. inversion H; subst; try contradiction; try congruence.
      * split; [|intros ->; now constructor].
        intros H. inversion H; subst; try contradiction; try congruence.
      * split; [|intros ->; now apply rejected_status].
        intros H. inversion H; subst; try contradiction; try congruence.
    + destruct (Err.request e) eqn:Eq.
      * split; [|intros ->; now constructor].
        intros H. inversion H; subst; try contradiction; try congruence.
      * split; [|intros ->; now constructor].
        intros H. inversion H; subst; try contradiction; try congruence.
Qed.

Lemma weather_of_unmapped (rt : Runtime) (task : Task) (d : Owm.data) (w : World) :
  (exists e, fst (weather_of rt task d w) = inl e) <-> unmapped d.
Proof.
  unfold weather_of, unmapped.
  destruct (Owm.main d), (Owm.weather d), (Owm.wind d), (Owm.clouds d); simpl;
    split; try (intros [e H]; discriminate H);
    try (intros [H|[H|[H|H]]]; discriminate H);
    try (intros _; eexists; reflexivity); tauto.
Qed.

Lemma lookup_failure_inv (rt : Runtime) (task : Task) (w : World) (msg : string) :
  lookup_failure rt task w msg ->
  (connected w = false /\ msg = "Database not available")
  \/ (connected w = true /\ truthy (OPENWEATHER_API_KEY rt) = false
      /\ msg = "Weather service configuration error")
  \/ (exists key e,
        connected w = true /\ OPENWEATHER_API_KEY rt = Some key /\ key <> ""
        /\ axios_get rt (weather_url task key) = Rejected e
        /\ msg = errorMessage e)
  \/ (exists key d,
        connected w = true /\ OPENWEATHER_API_KEY rt = Some key /\ key <> ""
        /\ axios_get rt (weather_url task key) = Resolved d
        /\ unmapped d
        /\ msg = "Could not fetch weather data for this location").
Proof.
  destruct 1 as [Hc|Hc Hk|key e msg Hc Hk Hne Hax Hr|key d Hc Hk Hne Hax Hu].
  - now left.
  - right. now left.
  - right. right. left. exists key, e. repeat split; trivial.
    now apply rejection_reason_errorMessage.
  - right. right. right. exists key, d. now repeat split.
Qed.

(** C3, as amended. Whenever the lookup of a stored task does not succeed,
    the answer is HTTP 200 with [success: false] and the fixed reason of the
    failure: the store not connected, no credential configured, the request
    rejected (timeout or abort, 404, 401, 429, any other status, no
    response, or none of these marks), or an answer of the provider that
    cannot be mapped; and each such failure is answered with its reason. *)
Theorem weather_failure_fixed_reason (rt : Runtime) (w : World)
    (taskId : string) (oid : ObjectId) (task : Task) :
  castObjectId taskId = Some oid ->
  find (has_id oid) (collection w) = Some task ->
  exists b,
    fst (get_weather rt taskId w) = inr (Json 200 b)
    /\ (success b = Some true
        \/ exists msg,
             b = failure_json msg /\ success b = Some false
             /\ lookup_failure rt task w msg)
    /\ forall msg, lookup_failure rt task w msg -> b = failure_json msg.
Proof.
  intros Hid Hf.
  assert (Hinv : forall msg, lookup_failure rt task w msg ->
            (connected w = false /\ msg = "Database not available")
            \/ (connected w = true /\ truthy (OPENWEATHER_API_KEY rt) = false
                /\ msg = "Weather service configuration error")
            \/ (exists key e,
                  connected w = true /\ OPENWEATHER_API_KEY rt = Some key
                  /\ key <> ""
                  /\ axios_get rt (weather_url task key) = Rejected e
                  /\ msg = errorMessage e)
            \/ (exists key d,
                  connected w = true /\ OPENWEATHER_API_KEY rt = Some key
                  /\ key <> ""
                  /\ axios_get rt (weather_url task key) = Resolved d
                  /\ unmapped d
                  /\ msg = "Could not fetch weather data for this location"))
    by apply lookup_failure_inv.
  destruct (connected w) eqn:Hc.
  2:{ exists (failure_json "Database not available"). split; [|split].
      - unfold get_weather, try_catch, bind, get. now rewrite Hc.
      - right. eexists. repeat split. now constructor.
      - intros msg H.
        destruct (Hinv msg H)
          as [[_ ->]|[(Hc' & _)|[(k & e & Hc' & _)|(k & d & Hc' & _)]]];
          trivial; discriminate Hc'. }
  assert (Hkey : forall k, OPENWEATHER_API_KEY rt = Some k -> k <> "" ->
                           exists c r, OPENWEATHER_API_KEY rt = Some (String c r)).
  { intros k E Hne. destruct k as [|c r]; [contradiction | eauto]. }
  destruct (OPENWEATHER_API_KEY rt) as [[|c r]|] eqn:Hk.
  1,3: exists (failure_json "Weather service configuration error");
    (split; [|split];
     [ rewrite (get_weather_no_key rt w taskId oid task Hc Hid Hf)
         by (rewrite Hk; reflexivity); reflexivity
     | right; eexists; repeat split;
       apply failed_credential; [exact Hc | rewrite Hk; reflexivity]
     | intros msg H;
       destruct (Hinv msg H)
         as [[Hc' _]|[(_ & _ & ->)|[(k & e & _ & Hk' & Hne & _)
                                   |(k & d & _ & Hk' & Hne & _)]]];
       trivial; try discriminate;
       destruct (Hkey k Hk' Hne) as (c' & r' & E); discriminate E ]).
  rewrite (get_weather_found rt w taskId oid task c r Hc Hid Hf Hk).
  cbv zeta. unfold fst at 1.
  destruct (axios_get rt (weather_url task (String c r))) as [d|e] eqn:Hax.
  - pose proof (weather_of_unmapped rt task d
                  (requested (weather_url task (String c r)) w)) as Hun.
    destruct (fst (weather_of rt task d _)) as [e|v] eqn:Ew.
    + rewrite (weather_of_throws_TypeError _ _ _ _ _ Ew).
      eexists. split; [reflexivity|]. split.
      * right. eexists. repeat split.
        apply (failed_answer rt task w (String c r) d); trivial; [discriminate|].
        apply Hun. eauto.
      * intros msg H.
        destruct (Hinv msg H)
          as [[Hc' _]|[(_ & Hk' & _)|[(k & e' & _ & Hk' & _ & Hax' & _)
                                     |(k & d' & _ & _ & _ & _ & _ & ->)]]];
          trivial; try discriminate.
        injection Hk' as <-. rewrite Hax in Hax'. discriminate.
    + eexists. split; [reflexivity|]. split; [now left|].
      intros msg H. exfalso.
      destruct (Hinv msg H)
        as [[Hc' _]|[(_ & Hk' & _)|[(k & e' & _ & Hk' & _ & Hax' & _)
                                   |(k & d' & _ & Hk' & _ & Hax' & Hu & _)]]];
        try discriminate.
      * injection Hk' as <-. rewrite Hax in Hax'. discriminate.
      * injection Hk' as <-. rewrite Hax in Hax'. injection Hax' as <-.
        apply Hun in Hu. destruct Hu as [e' Hu]. discriminate.
  - eexists. split; [reflexivity|]. split.
    + right. eexists. repeat split.
      apply (failed_request rt task w (String c r) e); trivial; [discriminate|].
      now apply rejection_reason_errorMessage.
    + intros msg H.
      destruct (Hinv msg H)
        as [[Hc' _]|[(_ & Hk' & _)|[(k & e' & _ & Hk' & _ & Hax' & ->)
                                   |(k & d' & _ & Hk' & _ & Hax' & _)]]];
        try discriminate.
      * injection Hk' as <-. rewrite Hax in Hax'. now injection Hax' as <-.
      * injection Hk' as <-. rewrite Hax in Hax'. discriminate.
Qed.

Lemma weather_failure_fixed_reason_witness :
  exists b,
    fst (get_weather Sample.rt_503 Sample.id0 Sample.three_tasks) = inr (Json 200 b)
    /\ (success b = Some true
        \/ exists msg,
             b = failure_json msg /\ success b = Some false
             /\ lookup_failure Sample.rt_503 Sample.picnic Sample.three_tasks msg)
    /\ forall msg,
         lookup_failure Sample.rt_503 Sample.picnic Sample.three_tasks msg ->
         b = failure_json msg.
Proof.
  apply (weather_failure_fixed_reason Sample.rt_503 Sample.three_tasks Sample.id0
           0%N Sample.picnic); vm_compute; reflexivity.
Defined.

Example weather_failure_503 :
  fst (get_weather Sample.rt_503 Sample.id0 Sample.three_tasks)
  = inr (Json 200 (failure_json "Weather service error: 503"))
  /\ lookup_failure Sample.rt_503 Sample.picnic Sample.three_tasks
       "Weather service error: 503".
Proof.
  split; [reflexivity|].
  apply (failed_request _ _ _ "k3y"
           (Err.mk "AxiosError" (Some "ERR_BAD_RESPONSE")
                   "Request failed with status code 503" (Some 503) true));
    try reflexivity; try discriminate.
  apply (rejected_status _ 503); try reflexivity; try discriminate.
  unfold timed_out_error. simpl. intros [H|H]; discriminate H.
Qed.

(** C3, as stated, fails: a lookup whose provider answer has no conditions
    fails with a reason that belongs to none of the six listed kinds. *)
Lemma weather_failure_unlisted_reason :
  fst (get_weather Sample.rt_no_conditions Sample.id0 Sample.three_tasks)
    = inr (Json 200 (failure_json "Could not fetch weather data for this location"))
  /\ forall k, Spec.listed k ->
       Spec.reason k <> "Could not fetch weather data for this location".
Proof.
  split; [reflexivity|].
  intros k Hk. destruct k; simpl in Hk; try contradiction; simpl.
  - discriminate.
  - destruct (code =? 404); [discriminate|].
    destruct (code =? 401); [discriminate|].
    destruct (code =? 429); discriminate.
  - discriminate.
Qed.

(** In every case where the handler stops before the request, nothing is
    added to the log of outbound requests; when it goes on, exactly the
    provider URL is. *)
Lemma get_weather_outbound (rt : Runtime) (w : World) (taskId : string) :
  outbound (snd (get_weather rt taskId w)) = outbound w
  \/ exists task c r,
       connected w = true
       /\ OPENWEATHER_API_KEY rt = Some (String c r)
       /\ In task (collection w)
       /\ castObjectId taskId = Some (_id task)
       /\ outbound (snd (get_weather rt taskId w))
          = weather_url task (String c r) :: outbound w.
Proof.
  destruct (connected w) eqn:Hc.
  2:{ left. unfold get_weather, try_catch, bind, get. rewrite Hc. reflexivity. }
  destruct (castObjectId taskId) as [oid|] eqn:Hid.
  2:{ left. unfold get_weather, try_catch, bind, get, Task_findById.
      rewrite Hc, Hid. reflexivity. }
  destruct (find (has_id oid) (collection w)) as [task|] eqn:Hf.
  2:{ left. now rewrite (get_weather_not_found rt w taskId oid Hc Hid Hf). }
  destruct (OPENWEATHER_API_KEY rt) as [[|c r]|] eqn:Hk.
  - left. rewrite (get_weather_no_key rt w taskId oid task Hc Hid Hf);
      [reflexivity | now rewrite Hk].
  - right. exists task, c, r.
    destruct (find_some _ _ Hf) as [Hin Heq].
    unfold has_id in Heq. apply N.eqb_eq in Heq. subst oid.
    repeat split; trivial.
    now rewrite (get_weather_found rt w taskId (_id task) task c r Hc Hid Hf Hk).
  - left. rewrite (get_weather_no_key rt w taskId oid task Hc Hid Hf);
      [reflexivity | now rewrite Hk].
Qed.



(** A malformed id is answered with the generic failure, the cast error
    being caught; no request is made. *)
Example get_weather_malformed_id :
  get_weather Sample.rt "not-an-id" Sample.three_tasks
  = (inr (Json 200 (failure_json "Could not fetch weather data for this location")),
     Sample.three_tasks).
Proof. reflexivity. Qed.


Example weather_request_is_logged :
  outbound (snd (get_weather Sample.rt Sample.id0 Sample.three_tasks))
  = ["https://api.openweathermap.org/data/2.5/weather?q=College%20Park%2CUS&units=imperial&appid=k3y"].
Proof. reflexivity. Qed.

(** [Math.round] gives a nearest integer. *)
Lemma Math_round_nearest (x : Q) : Spec.nearest x (Math_round x).
Proof.
  unfold Spec.nearest, Math_round. intros k.
  set (r := Qfloor (x + (1 # 2))).
  assert (Hlo : (inject_Z r <= x + (1 # 2))%Q) by apply Qfloor_le.
  assert (Hhi : (x + (1 # 2) < inject_Z (r + 1))%Q) by apply Qlt_floor.
  rewrite inject_Z_plus in Hhi.
  change (inject_Z 1) with 1%Q in Hhi.
  destruct (Z.lt_trichotomy k r) as [Hk|[Hk|Hk]].
  - assert (Hq : (inject_Z k + 1 <= inject_Z r)%Q).
    { change 1%Q with (inject_Z 1). rewrite <- inject_Z_plus.
      rewrite <- Zle_Qle. lia. }
    apply Qabs_case; intros; apply Qabs_case; intros; lra.
  - subst k. apply Qle_refl.
  - assert (Hq : (inject_Z r + 1 <= inject_Z k)%Q).
    { change 1%Q with (inject_Z 1). rewrite <- inject_Z_plus.
      rewrite <- Zle_Qle. lia. }
    apply Qabs_case; intros; apply Qabs_case; intros; lra.
Qed.

(** A tie goes up: the result is within a half below and strictly less than
    a half above. *)
Lemma Math_round_bounds (x : Q) :
  (x - (1 # 2) < inject_Z (Math_round x) <= x + (1 # 2))%Q.
Proof.
  unfold Math_round.
  pose proof (Qfloor_le (x + (1 # 2))) as Hlo.
  pose proof (Qlt_floor (x + (1 # 2))) as Hhi.
  rewrite inject_Z_plus in Hhi. change (inject_Z 1) with 1%Q in Hhi.
  split; lra.
Qed.

Lemma place_joined (t : Task) :
  city t
  ++ (match state t with
      | Some (String c' r) => ", " ++ String c' r
      | _ => ""
      end)
  ++ ", " ++ country t
  = Spec.place t.
Proof.
  unfold Spec.place.
  destruct (state t) as [[|c r]|]; reflexivity.
Qed.

(** C6. A lookup that succeeds answers with [temp] and [feels_like] rounded
    to a nearest integer, the icon URL built from the provider's icon code,
    humidity, wind and clouds as the provider gave them, the task's time of
    day or "All day" when it has none, and its place: city, state when there
    is one, and country, joined with commas. *)
Theorem get_weather_view (rt : Runtime) (w : World) (taskId : string)
    (oid : ObjectId) (task : Task) (c : ascii) (r : string)
    (d : Owm.data) (m : Owm.main_t) (cond : Owm.condition)
    (conds : list Owm.condition) (speed all : Q) :
  connected w = true ->
  castObjectId taskId = Some oid ->
  find (has_id oid) (collection w) = Some task ->
  OPENWEATHER_API_KEY rt = Some (String c r) ->
  axios_get rt (weather_url task (String c r)) = Resolved d ->
  Owm.main d = Some m ->
  Owm.weather d = cond :: conds ->
  Owm.wind d = Some speed ->
  Owm.clouds d = Some all ->
  exists v,
    fst (get_weather rt taskId w) = inr (Json 200 (weather_json v))
    /\ Spec.nearest (Owm.temp m) (WeatherView.temp v)
    /\ Spec.nearest (Owm.feels_like m) (WeatherView.feels_like v)
    /\ WeatherView.icon v
       = "https://openweathermap.org/img/wn/" ++ Owm.icon cond ++ "@2x.png"
    /\ WeatherView.humidity v = Owm.humidity m
    /\ WeatherView.wind v = speed
    /\ WeatherView.clouds v = all
    /\ TaskView.time (WeatherView.task v) = Spec.time_label task
    /\ TaskView.location (WeatherView.task v) = Spec.place task.
Proof.
  intros Hc Hid Hf Hk Hax Hm Hw Hs Ha.
  rewrite (get_weather_found rt w taskId oid task c r Hc Hid Hf Hk).
  cbv zeta. rewrite Hax. unfold weather_of. rewrite Hm, Hw, Hs, Ha.
  simpl. eexists. split; [reflexivity|]. simpl.
  repeat split; try apply Math_round_nearest.
  - unfold Spec.time_label.
    destruct (taskTime task) as [[|c' r']|]; reflexivity.
  - apply place_joined.
Qed.

Lemma get_weather_view_witness :
  exists v,
    fst (get_weather Sample.rt Sample.id0 Sample.three_tasks)
      = inr (Json 200 (weather_json v))
    /\ Spec.nearest (7249 # 100) (WeatherView.temp v)
    /\ Spec.nearest (6950 # 100) (WeatherView.feels_like v)
    /\ WeatherView.icon v = "https://openweathermap.org/img/wn/01d@2x.png"
    /\ WeatherView.humidity v = (40 # 1)%Q
    /\ WeatherView.wind v = (57 # 10)%Q
    /\ WeatherView.clouds v = (0 # 1)%Q
    /\ TaskView.time (WeatherView.task v) = "All day"
    /\ TaskView.location (WeatherView.task v) = "College Park, MD, US".
Proof.
  apply (get_weather_view Sample.rt Sample.three_tasks Sample.id0 0%N Sample.picnic
           "k" "3y" Sample.data
           (Owm.mkMain (7249 # 100) (6950 # 100) (40 # 1))
           (Owm.mkCondition "clear sky" "01d") [] (57 # 10) (0 # 1));
    reflexivity.
Defined.

Example weather_view_values :
  exists v,
    fst (get_weather Sample.rt Sample.id0 Sample.three_tasks)
      = inr (Json 200 (weather_json v))
    /\ WeatherView.temp v = 72 /\ WeatherView.feels_like v = 70.
Proof. eexists. repeat split. Qed.

(** ** Creating: [POST /add] *)

Lemma TimeClip_valid (x : Num) (t : Z) :
  TimeClip x = Int t -> Spec.valid_instant t.
Proof.
  destruct x as [|z]; simpl; [discriminate|].
  destruct (Z.abs z >? 8640000000000000) eqn:E; [discriminate|].
  intros H. injection H as <-. unfold Spec.valid_instant. lia.
Qed.

Lemma taskDateObj_valid (body : Req.body) (w : World) (t : Z) :
  fst (taskDateObj body w) = inr (Int t) -> Spec.valid_instant t.
Proof.
  unfold taskDateObj.
  destruct (Req.taskDate body) as [s|]; [|discriminate].
  destruct (Req.taskTime body) as [[|c r]|]; simpl; intros H;
    injection H as H; exact (TimeClip_valid _ _ H).
Qed.

Lemma taskDateObj_world (body : Req.body) (w : World) :
  snd (taskDateObj body w) = w.
Proof.
  unfold taskDateObj.
  destruct (Req.taskDate body) as [s|]; [|reflexivity].
  destruct (Req.taskTime body) as [[|c r]|]; reflexivity.
Qed.

Lemma validate_stored_ok (d : Doc.t) (t : Task) :
  validate d = Some t ->
  Doc.taskDate d = Int (taskDate t)
  /\ activity t <> "" /\ city t <> "" /\ country t <> ""
  /\ Doc.activity d = Some (activity t)
  /\ Doc.city d = Some (city t)
  /\ Doc.country d = Some (country t).
Proof.
  unfold validate.
  destruct (Doc.activity d) as [[|a0 a]|]; simpl; try discriminate.
  destruct (Doc.city d) as [[|c0 c]|]; simpl; try discriminate.
  destruct (Doc.country d) as [[|k0 k]|]; simpl; try discriminate.
  destruct (Doc.taskDate d) as [|z]; try discriminate.
  intros H. injection H as <-. simpl. repeat split; discriminate.
Qed.

(** What [POST /add] does with a connected store, case by case. *)
Lemma post_add_connected (rt : Runtime) (body : Req.body) (w : World) :
  connected w = true ->
  post_add rt body w =
    match fst (taskDateObj body w) with
    | inl _ => (inr Spec.add_failed, w)
    | inr date =>
        let doc := Doc.mk (next_oid w) (Req.activity body) (Req.city body)
                     (Req.state body) (Req.country body) date
                     (match Req.taskTime body with
                      | Some (String c r) => Some (String c r)
                      | _ => None
                      end) (Date_now rt) in
        match validate doc with
        | Some t =>
            (inr (Redirect "/tasks"),
             mkWorld (readyState w) (collection w ++ [t]) (N.succ (next_oid w))
                     (outbound w))
        | None =>
            (inr Spec.add_failed,
             mkWorld (readyState w) (collection w) (N.succ (next_oid w))
                     (outbound w))
        end
    end.
Proof.
  intros Hc.
  unfold post_add, post_add_try, try_catch, bind at 1 2 3, get. rewrite Hc. simpl.
  unfold bind at 1, ret at 1.
  pose proof (taskDateObj_world body w) as Hw.
  destruct (taskDateObj body w) as [[e|date] w1]. simpl in Hw. subst w1.
  - reflexivity.
  - simpl in Hw. subst w1. simpl.
    unfold new_Task, bind, get, put, ret, save. simpl.
    match goal with |- context [validate ?d] => destruct (validate d) end;
      reflexivity.
Qed.

Lemma post_add_disconnected (rt : Runtime) (body : Req.body) (w : World) :
  connected w = false -> post_add rt body w = (inr Spec.add_failed, w).
Proof.
  intros Hc. unfold post_add, post_add_try, try_catch, bind at 1 2, get.
  rewrite Hc. reflexivity.
Qed.

Lemma Date_UTC_NaN (y m d h mi : Num) :
  y = NaN \/ m = NaN \/ d = NaN -> Date_UTC y m d h mi = NaN.
Proof.
  unfold Date_UTC, MakeDay, MakeFullYear.
  intros [->|[->| ->]]; try reflexivity.
  - destruct y as [|y]; [reflexivity|].
    destruct ((0 <=? y) && (y <=? 99)); reflexivity.
  - destruct y as [|y]; [reflexivity|].
    destruct ((0 <=? y) && (y <=? 99)); destruct m; reflexivity.
Qed.

Lemma validate_NaN (d : Doc.t) : Doc.taskDate d = NaN -> validate d = None.
Proof.
  unfold validate. intros ->.
  destruct (required_string (Doc.activity d)), (required_string (Doc.city d)),
           (required_string (Doc.country d)); reflexivity.
Qed.

Lemma unreadable_date_no_instant (body : Req.body) (w : World) :
  Spec.unreadable_date (Req.taskDate body) -> no_instant body w.
Proof.
  unfold no_instant, taskDateObj, Spec.unreadable_date. intros Hu t.
  destruct (Req.taskDate body) as [s|]; [|discriminate].
  destruct Hu as [i [Hi Hnan]].
  assert (Hcase : i = 0%nat \/ i = 1%nat \/ i = 2%nat) by lia.
  assert (Hany : parseInt_value (index (split "-" s) 0) = NaN
                 \/ num_sub (parseInt_value (index (split "-" s) 1)) (Int 1) = NaN
                 \/ parseInt_value (index (split "-" s) 2) = NaN).
  { destruct Hcase as [->|[->| ->]]; rewrite Hnan; auto. }
  destruct (Req.taskTime body) as [[|c r]|]; unfold ret, Date_UTC3, fst;
    rewrite (Date_UTC_NaN _ _ _ _ _ Hany); discriminate.
Qed.

(** C1, as amended. When the date and time fields give no valid instant
    (the date field is absent, or [Date.UTC] of the numbers read is [NaN]:
    a piece without a leading integer, or numbers out of a Date's range),
    the hours and minutes read being below 2^31 in magnitude, [POST /add]
    renders the form again with its error message and the stored tasks are
    as before; with the store connected and the date field present, the
    error caught is the schema's ValidationError. *)
Theorem post_add_rejects_invalid_instant (rt : Runtime) (body : Req.body)
    (w : World) :
  no_instant body w ->
  time_in_bounds (Req.taskTime body) ->
  fst (post_add rt body w) = inr Spec.add_failed
  /\ collection (snd (post_add rt body w)) = collection w
  /\ (connected w = true -> Req.taskDate body <> None ->
      fst (post_add_try rt body w) = inl (ValidationError "Task validation failed")).
Proof.
  intros Hno _.
  assert (Hobj : (exists e, taskDateObj body w = (inl e, w))
                 /\ Req.taskDate body = None
                 \/ taskDateObj body w = (inr NaN, w)).
  { pose proof (taskDateObj_world body w) as Hw. unfold no_instant in Hno.
    unfold taskDateObj in *.
    destruct (Req.taskDate body) as [s|];
      [right | left; split; [eexists; reflexivity | reflexivity]].
    destruct (Req.taskTime body) as [[|c r]|]; unfold ret, fst in *;
      match goal with
      | |- (inr ?d, _) = _ => destruct d as [|t]; [reflexivity|]
      end; now contradiction (Hno t). }
  destruct (connected w) eqn:Hc.
  - rewrite (post_add_connected rt body w Hc).
    unfold post_add_try, bind at 1 2 3, get. rewrite Hc. simpl.
    unfold bind at 1, ret at 1.
    destruct Hobj as [[[e He] Hnone]| Hnan].
    + rewrite He. simpl. repeat split. intros _ Hp. contradiction.
    + rewrite Hnan. simpl.
      unfold new_Task, bind, get, put, ret, save. simpl.
      rewrite validate_NaN by reflexivity. repeat split.
  - rewrite (post_add_disconnected rt body w Hc).
    repeat split. discriminate.
Qed.

Lemma post_add_rejects_invalid_instant_witness :
  fst (post_add Sample.rt (Sample.form "300000-01-01" (Some "10:30"))
         Sample.empty_store)
    = inr Spec.add_failed
  /\ collection (snd (post_add Sample.rt (Sample.form "300000-01-01" (Some "10:30"))
                        Sample.empty_store))
     = collection Sample.empty_store
  /\ (connected Sample.empty_store = true ->
      Req.taskDate (Sample.form "300000-01-01" (Some "10:30")) <> None ->
      fst (post_add_try Sample.rt (Sample.form "300000-01-01" (Some "10:30"))
             Sample.empty_store)
      = inl (ValidationError "Task validation failed")).
Proof.
  apply (post_add_rejects_invalid_instant Sample.rt
           (Sample.form "300000-01-01" (Some "10:30")) Sample.empty_store).
  - intros t. vm_compute. discriminate.
  - split; intros n E; vm_compute in E; injection E as <-; reflexivity.
Defined.

(** The causes the amended claim names: a date without an integer in one of
    its pieces, a year beyond a Date's range, a month beyond the engine's. *)
Example dates_without_instant :
  no_instant (Sample.form "next friday" None) Sample.empty_store
  /\ no_instant (Sample.form "2024-03" None) Sample.empty_store
  /\ no_instant (Sample.form "300000-01-01" None) Sample.empty_store
  /\ no_instant (Sample.form "2024-100000000-01" None) Sample.empty_store
  /\ no_instant (Sample.form "2024-13-40" (Some "noon")) Sample.empty_store.
Proof. repeat split; intros t; vm_compute; discriminate. Qed.

(** C1, as stated, fails: "2024-13-40" is no calendar date, yet the task is
    stored, with the month and the day carried over into 9 February 2025. *)
Lemma post_add_stores_impossible_date :
  Spec.iso_date "2024-13-40" = None
  /\ fst (post_add Sample.rt (Sample.form "2024-13-40" None) Sample.empty_store)
     = inr (Redirect "/tasks")
  /\ map taskDate
       (collection (snd (post_add Sample.rt (Sample.form "2024-13-40" None)
                           Sample.empty_store)))
     = [Spec.expected_instant (2025, 2, 9) None].
Proof. repeat split; vm_compute; reflexivity. Qed.

(** A date string of another shape is stored as well when its pieces start
    with integers. *)
Example post_add_stores_other_shapes :
  map taskDate
    (collection (run [Served Sample.rt (POST_add (Sample.form "2024-3-1" None));
                      Served Sample.rt (POST_add (Sample.form " 2024-03-01T10:00" None));
                      Served Sample.rt (POST_add (Sample.form "2024-03-01-junk" None))]
                     Sample.empty_store))
  = [1709251200000; 1709251200000; 1709251200000].
Proof. vm_compute. reflexivity. Qed.

(** ** The invariant of the store *)

Lemma delete_first_Forall (P : Task -> Prop) (oid : ObjectId) (l : list Task) :
  Forall P l -> Forall P (delete_first oid l).
Proof.
  induction 1 as [|x r Hx Hr IH]; simpl.
  - constructor.
  - destruct (has_id oid x); [exact Hr | now constructor].
Qed.

Lemma get_tasks_world (w : World) : snd (get_tasks w) = w.
Proof.
  unfold get_tasks, try_catch, bind, get, Task_find_sort_taskDate, bind, get, ret.
  destruct (connected w); reflexivity.
Qed.

Lemma get_weather_collection (rt : Runtime) (taskId : string) (w : World) :
  collection (snd (get_weather rt taskId w)) = collection w.
Proof.
  destruct (connected w) eqn:Hc.
  2:{ unfold get_weather, try_catch, bind, get. rewrite Hc. reflexivity. }
  destruct (castObjectId taskId) as [oid|] eqn:Hid.
  2:{ unfold get_weather, try_catch, bind, get, Task_findById.
      rewrite Hc, Hid. reflexivity. }
  destruct (find (has_id oid) (collection w)) as [task|] eqn:Hf.
  2:{ now rewrite (get_weather_not_found rt w taskId oid Hc Hid Hf). }
  destruct (OPENWEATHER_API_KEY rt) as [[|c r]|] eqn:Hk.
  - rewrite (get_weather_no_key rt w taskId oid task Hc Hid Hf);
      [reflexivity | now rewrite Hk].
  - now rewrite (get_weather_found rt w taskId oid task c r Hc Hid Hf Hk).
  - rewrite (get_weather_no_key rt w taskId oid task Hc Hid Hf);
      [reflexivity | now rewrite Hk].
Qed.

(** [POST /add] is the only writer: it leaves the stored tasks as they were
    or appends one task, which is as the data model promises. *)
Lemma post_add_collection (rt : Runtime) (body : Req.body) (w : World) :
  collection (snd (post_add rt body w)) = collection w
  \/ exists t, Spec.stored_ok t
       /\ collection (snd (post_add rt body w)) = (collection w ++ [t])%list.
Proof.
  destruct (connected w) eqn:Hc.
  2:{ left. now rewrite (post_add_disconnected rt body w Hc). }
  rewrite (post_add_connected rt body w Hc).
  destruct (fst (taskDateObj body w)) as [e|date] eqn:Hd; [now left|].
  cbv zeta.
  match goal with |- context [validate ?d] => destruct (validate d) as [t|] eqn:Hv end.
  - right. exists t. split; [|reflexivity].
    apply validate_stored_ok in Hv. simpl in Hv.
    destruct Hv as [Hdate [Ha [Hci [Hco _]]]].
    repeat split; trivial.
    apply (taskDateObj_valid body w). now rewrite Hd, Hdate.
  - now left.
Qed.

Lemma serve_preserves_store_ok (rt : Runtime) (req : Request) (w : World) :
  store_ok w -> store_ok (snd (serve rt req w)).
Proof.
  unfold store_ok, serve. intros Hok.
  assert (Hroute : Forall Spec.stored_ok (collection (snd (route rt req w)))).
  { destruct req; simpl; trivial.
    - now rewrite get_tasks_world.
    - destruct (post_add_collection rt body w) as [->|[t [Ht ->]]]; trivial.
      apply Forall_app. split; trivial. now constructor.
    - destruct (connected w) eqn:Hc.
      + rewrite (post_delete_connected id w Hc).
        destruct (castObjectId id); simpl; trivial.
        now apply delete_first_Forall.
      + unfold post_delete, try_catch, bind, get. now rewrite Hc.
    - now rewrite get_weather_collection. }
  destruct (route rt req w) as [[e|r] w']; exact Hroute.
Qed.

Lemma run_store_ok (evs : list Event) (w : World) :
  store_ok w -> store_ok (run evs w).
Proof.
  revert w. induction evs as [|ev evs IH]; intros w Hok; simpl.
  - exact Hok.
  - apply IH. destruct ev as [rt req|st]; simpl.
    + now apply serve_preserves_store_ok.
    + exact Hok.
Qed.

(** C9. Stored tasks have a non-empty activity, city and country and a valid
    instant as their date, and every request served and every change of the
    connection's state keeps it so. *)
Theorem run_preserves_store_ok (evs : list Event) (w : World) :
  store_ok w -> store_ok (run evs w).
Proof. apply run_store_ok. Qed.

Lemma run_preserves_store_ok_witness :
  store_ok boot /\ store_ok Sample.three_tasks.
Proof.
  split; [constructor|].
  apply (run_preserves_store_ok
           [Connection 1;
            Served Sample.rt (POST_add (Sample.form "2024-03-01" None));
            Served Sample.rt (POST_add (Sample.form "2024-01-15" (Some "09:30")));
            Served Sample.rt (POST_add (Sample.form "2024-02-10" None))] boot).
  constructor.
Defined.

(** Every state the process can reach from its start has a sound store. *)
Corollary reachable_store_ok (evs : list Event) : store_ok (run evs boot).
Proof. apply run_store_ok. constructor. Qed.

(** Inputs with an empty required field or an unreadable date are not
    stored. *)
Example post_add_rejects_empty_city :
  collection (snd (post_add Sample.rt
                     (Req.mkBody (Some "Picnic") (Some "") None (Some "US")
                                 (Some "2024-03-01") None)
                     Sample.empty_store)) = [].
Proof. reflexivity. Qed.

(** ** The stored instant *)

Lemma is_digit_facts (c : ascii) :
  Spec.is_digit c = true ->
  digit_value c = Some (Spec.digit c)
  /\ (Spec.digit c <? 10) = true
  /\ 0 <= Spec.digit c <= 9
  /\ is_white_space c = false
  /\ Ascii.eqb c "-" = false
  /\ Ascii.eqb c "+" = false
  /\ Ascii.eqb c ":" = false
  /\ Ascii.eqb c "x" = false
  /\ Ascii.eqb c "X" = false.
Proof.
  destruct c as [b0 b1 b2 b3 b4 b5 b6 b7].
  destruct b0, b1, b2, b3, b4, b5, b6, b7; intros H; vm_compute in H;
    try discriminate H; clear H;
    repeat split; try reflexivity; vm_compute; discriminate.
Qed.

Lemma parseInt_2 (a b : ascii) :
  Spec.is_digit a = true -> Spec.is_digit b = true ->
  parseInt (String a (String b "")) = Int (10 * Spec.digit a + Spec.digit b).
Proof.
  intros Ha Hb.
  destruct (is_digit_facts a Ha) as (Va & La & Ba & Wa & Ma & Pa & _).
  destruct (is_digit_facts b Hb) as (Vb & Lb & Bb & _ & _ & _ & _ & Xb & XXb).
  unfold parseInt, trim_start. rewrite Wa.
  unfold strip_sign. rewrite Ma, Pa.
  unfold strip_prefix. rewrite Xb, XXb, andb_false_r.
  unfold radix_prefix. rewrite Va, La, Vb, Lb.
  f_equal. lia.
Qed.

Lemma parseInt_4 (a b c d : ascii) :
  Spec.is_digit a = true -> Spec.is_digit b = true ->
  Spec.is_digit c = true -> Spec.is_digit d = true ->
  parseInt (String a (String b (String c (String d ""))))
  = Int (1000 * Spec.digit a + 100 * Spec.digit b + 10 * Spec.digit c + Spec.digit d).
Proof.
  intros Ha Hb Hc Hd.
  destruct (is_digit_facts a Ha) as (Va & La & Ba & Wa & Ma & Pa & _).
  destruct (is_digit_facts b Hb) as (Vb & Lb & Bb & _ & _ & _ & _ & Xb & XXb).
  destruct (is_digit_facts c Hc) as (Vc & Lc & Bc & _).
  destruct (is_digit_facts d Hd) as (Vd & Ld & Bd & _).
  unfold parseInt, trim_start. rewrite Wa.
  unfold strip_sign. rewrite Ma, Pa.
  unfold strip_prefix. rewrite Xb, XXb, andb_false_r.
  unfold radix_prefix. rewrite Va, La, Vb, Lb, Vc, Lc, Vd, Ld.
  f_equal. lia.
Qed.

(** Constants of a concrete month are folded before the arithmetic. *)
Ltac fold_month :=
  repeat match goal with
         | |- context [Spec.march_days ?k] =>
             let v := eval vm_compute in (Spec.march_days k) in
             change (Spec.march_days k) with v
         | |- context [?k <=? 2] =>
             let v := eval vm_compute in (k <=? 2) in
             change (k <=? 2) with v
         | |- context [DaysBeforeMonth ?l (?k - 1)] =>
             let v := eval vm_compute in (k - 1) in
             change (k - 1) with v
         end;
  cbv beta iota zeta delta [DaysBeforeMonth Spec.days_in_month negb andb orb].

Lemma MakeDay_civil (y m d : Z) :
  -1000000 <= y <= 1000000 -> 1 <= m <= 12 ->
  MakeDay (Int y) (Int (m - 1)) (Int d) = Int (Spec.days_from_civil y m d).
Proof.
  intros Hy Hm. unfold MakeDay.
  replace (Z.abs y <=? 1000000) with true by (symmetry; apply Z.leb_le; lia).
  replace (Z.abs (m - 1) <=? 10000000) with true by (symmetry; apply Z.leb_le; lia).
  simpl andb. cbv iota.
  rewrite (Z.div_small (m - 1) 12) by lia.
  rewrite (Z.mod_small (m - 1) 12) by lia.
  rewrite Z.add_0_r. f_equal.
  unfold DayFromYear, InLeapYear, Spec.days_from_civil, Spec.era_days.
  assert (Hcases : m = 1 \/ m = 2 \/ m = 3 \/ m = 4 \/ m = 5 \/ m = 6 \/ m = 7
                   \/ m = 8 \/ m = 9 \/ m = 10 \/ m = 11 \/ m = 12) by lia.
  clear Hm.
  destruct (Z.eqb_spec (y mod 4) 0) as [H4|H4];
  destruct (Z.eqb_spec (y mod 100) 0) as [H100|H100];
  destruct (Z.eqb_spec (y mod 400) 0) as [H400|H400];
  repeat (destruct Hcases as [->|Hcases]); try subst m;
    fold_month; Z.div_mod_to_equations; lia.
Qed.

Lemma split_date (y1 y2 y3 y4 m1 m2 d1 d2 : ascii) :
  forallb Spec.is_digit [y1; y2; y3; y4; m1; m2; d1; d2] = true ->
  split "-" (String y1 (String y2 (String y3 (String y4 (String "-"
              (String m1 (String m2 (String "-" (String d1 (String d2 ""))))))))))
  = [String y1 (String y2 (String y3 (String y4 "")));
     String m1 (String m2 ""); String d1 (String d2 "")].
Proof.
  cbn [forallb]. intros H.
  repeat match type of H with
         | _ && _ = true => let H1 := fresh in apply andb_prop in H; destruct H as [H1 H];
              apply is_digit_facts in H1; destruct H1 as (_ & _ & _ & _ & H1 & _)
         end.
  cbn [split]. 
  repeat match goal with E : Ascii.eqb _ "-" = false |- _ => rewrite E; clear E end.
  reflexivity.
Qed.

Lemma split_time (h1 h2 m1 m2 : ascii) :
  forallb Spec.is_digit [h1; h2; m1; m2] = true ->
  split ":" (String h1 (String h2 (String ":" (String m1 (String m2 "")))))
  = [String h1 (String h2 ""); String m1 (String m2 "")].
Proof.
  cbn [forallb]. intros H.
  repeat match type of H with
         | _ && _ = true => let H1 := fresh in apply andb_prop in H; destruct H as [H1 H];
              apply is_digit_facts in H1; destruct H1 as (_ & _ & _ & _ & _ & _ & H1 & _)
         end.
  cbn [split].
  repeat match goal with E : Ascii.eqb _ ":" = false |- _ => rewrite E; clear E end.
  reflexivity.
Qed.

Lemma iso_date_parts (s : string) (y m d : Z) :
  Spec.iso_date s = Some (y, m, d) ->
  parseInt_value (index (split "-" s) 0) = Int y
  /\ parseInt_value (index (split "-" s) 1) = Int m
  /\ parseInt_value (index (split "-" s) 2) = Int d
  /\ 0 <= y <= 9999 /\ 1 <= m <= 12 /\ 1 <= d <= Spec.days_in_month y m.
Proof.
  unfold Spec.iso_date.
  destruct s as [|y1 [|y2 [|y3 [|y4 [|h1 [|m1 [|m2 [|h2 [|d1 [|d2 [|x s]]]]]]]]]]];
    cbn [list_ascii_of_string]; try discriminate.
  destruct (Ascii.eqb_spec h1 "-") as [->|]; [|discriminate].
  destruct (Ascii.eqb_spec h2 "-") as [->|]; [|discriminate].
  cbn [andb].
  destruct (forallb Spec.is_digit [y1; y2; y3; y4; m1; m2; d1; d2]) eqn:Hdig;
    [|discriminate].
  cbv zeta.
  remember (1000 * Spec.digit y1 + 100 * Spec.digit y2 + 10 * Spec.digit y3
            + Spec.digit y4) as Y eqn:EY.
  remember (10 * Spec.digit m1 + Spec.digit m2) as Mo eqn:EM.
  remember (10 * Spec.digit d1 + Spec.digit d2) as Dd eqn:ED.
  match goal with |- (if ?b then _ else _) = _ -> _ => destruct b eqn:Hrange end;
    [|discriminate].
  intros H. injection H as <- <- <-.
  rewrite (split_date _ _ _ _ _ _ _ _ Hdig).
  cbn [forallb] in Hdig.
  repeat match type of Hdig with
         | _ && _ = true =>
             let H1 := fresh "D" in apply andb_prop in Hdig; destruct Hdig as [H1 Hdig]
         end.
  unfold index, nth_error, parseInt_value.
  rewrite parseInt_4, !parseInt_2 by assumption.
  repeat match goal with
         | D : Spec.is_digit _ = true |- _ =>
             apply is_digit_facts in D; destruct D as (_ & _ & D & _)
         end.
  repeat rewrite andb_true_iff in Hrange. rewrite !Z.leb_le in Hrange.
  subst Y Mo Dd. repeat split; try reflexivity; lia.
Qed.

Lemma iso_time_parts (ts : string) (h mi : Z) :
  Spec.iso_time ts = Some (h, mi) ->
  (exists c r, ts = String c r)
  /\ parseInt_value (index (split ":" ts) 0) = Int h
  /\ parseInt (or_else (index (split ":" ts) 1) "0") = Int mi
  /\ 0 <= h <= 23 /\ 0 <= mi <= 59.
Proof.
  unfold Spec.iso_time.
  destruct ts as [|h1 [|h2 [|c [|m1 [|m2 [|x s]]]]]];
    cbn [list_ascii_of_string]; try discriminate.
  - (* HH *)
    destruct (forallb Spec.is_digit [h1; h2]) eqn:Hdig; [|discriminate].
    cbv zeta. remember (10 * Spec.digit h1 + Spec.digit h2) as H eqn:EH.
    destruct (H <=? 23) eqn:Hrange; [|discriminate].
    intros E. injection E as <- <-.
    cbn [forallb] in Hdig.
    apply andb_prop in Hdig. destruct Hdig as [D1 Hdig].
    apply andb_prop in Hdig. destruct Hdig as [D2 _].
    pose proof (is_digit_facts h1 D1) as (_ & _ & B1 & _ & _ & _ & C1 & _).
    pose proof (is_digit_facts h2 D2) as (_ & _ & B2 & _ & _ & _ & C2 & _).
    cbn [split]. rewrite C1, C2. cbn [index nth_error or_else].
    unfold parseInt_value.
    rewrite parseInt_2 by assumption.
    apply Z.leb_le in Hrange. subst H.
    repeat split; try reflexivity; try lia. eauto.
  - (* HH:MM *)
    destruct (Ascii.eqb_spec c ":") as [->|]; [|discriminate].
    cbn [andb].
    destruct (forallb Spec.is_digit [h1; h2; m1; m2]) eqn:Hdig; [|discriminate].
    cbv zeta. remember (10 * Spec.digit h1 + Spec.digit h2) as H eqn:EH.
    remember (10 * Spec.digit m1 + Spec.digit m2) as Mi eqn:EMi.
    destruct ((H <=? 23) && (Mi <=? 59)) eqn:Hrange; [|discriminate].
    intros E. injection E as <- <-.
    rewrite (split_time _ _ _ _ Hdig).
    cbn [forallb] in Hdig.
    repeat match type of Hdig with
           | _ && _ = true =>
               let H1 := fresh "D" in apply andb_prop in Hdig; destruct Hdig as [H1 Hdig]
           end.
    cbn [index nth_error or_else]. unfold parseInt_value.
    rewrite !parseInt_2 by assumption.
    repeat match goal with
           | D : Spec.is_digit _ = true |- _ =>
               apply is_digit_facts in D; destruct D as (_ & _ & D & _)
           end.
    rewrite andb_true_iff, !Z.leb_le in Hrange. subst H Mi.
    repeat split; try reflexivity; try lia. eauto.
Qed.

Lemma days_in_month_le (y m : Z) : Spec.days_in_month y m <= 31.
Proof.
  unfold Spec.days_in_month.
  destruct m as [|p|p]; try lia.
  do 5 (try (destruct p as [p|p|]; try lia; try (destruct (Spec.leap y); lia))).
Qed.

Lemma days_from_civil_bounds (y m d : Z) :
  0 <= y <= 9999 -> 1 <= m <= 12 -> 1 <= d <= 31 ->
  -800000 <= Spec.days_from_civil y m d <= 3000000.
Proof.
  intros Hy Hm Hd. unfold Spec.days_from_civil, Spec.era_days, Spec.march_days.
  destruct (m <=? 2); Z.div_mod_to_equations; lia.
Qed.

Lemma Date_UTC_civil (y m d h mi : Z) :
  100 <= y <= 9999 -> 1 <= m <= 12 -> 1 <= d <= 31 ->
  0 <= h <= 23 -> 0 <= mi <= 59 ->
  Date_UTC (Int y) (num_sub (Int m) (Int 1)) (Int d) (Int h) (Int mi)
  = Int (Spec.utc_instant y m d h mi).
Proof.
  intros Hy Hm Hd Hh Hmi.
  unfold Date_UTC, MakeFullYear, num_sub.
  replace ((0 <=? y) && (y <=? 99)) with false
    by (symmetry; apply andb_false_iff; right; apply Z.leb_gt; lia).
  rewrite MakeDay_civil by lia.
  pose proof (days_from_civil_bounds y m d) as Hb.
  unfold MakeTime, MakeDate, TimeClip, Spec.utc_instant, msPerDay, msPerHour,
    msPerMinute.
  match goal with |- (if ?b then _ else _) = _ => replace b with false end.
  - f_equal. lia.
  - symmetry. rewrite Z.gtb_ltb. apply Z.ltb_ge. lia.
Qed.


(** The day count of the specification is the calendar's: the epoch is day
    0, and each date is one day after the one before it, within a month,
    from a month to the next and from a year to the next. *)
Lemma days_from_civil_consecutive (y m d : Z) :
  Spec.days_from_civil 1970 1 1 = 0
  /\ Spec.days_from_civil y m (d + 1) = Spec.days_from_civil y m d + 1
  /\ (1 <= m <= 11 ->
      Spec.days_from_civil y (m + 1) 1
      = Spec.days_from_civil y m (Spec.days_in_month y m) + 1)
  /\ Spec.days_from_civil (y + 1) 1 1 = Spec.days_from_civil y 12 31 + 1.
Proof.
  split; [reflexivity|]. split; [unfold Spec.days_from_civil; lia|]. split.
  - intros Hm.
    assert (Hcases : m = 1 \/ m = 2 \/ m = 3 \/ m = 4 \/ m = 5 \/ m = 6 \/ m = 7
                     \/ m = 8 \/ m = 9 \/ m = 10 \/ m = 11) by lia.
    clear Hm.
    unfold Spec.days_from_civil, Spec.era_days, Spec.days_in_month, Spec.leap.
    destruct (Z.eqb_spec (y mod 4) 0) as [H4|H4];
    destruct (Z.eqb_spec (y mod 100) 0) as [H100|H100];
    destruct (Z.eqb_spec (y mod 400) 0) as [H400|H400];
    repeat (destruct Hcases as [->|Hcases]); try subst m;
      fold_month; Z.div_mod_to_equations; lia.
  - unfold Spec.days_from_civil, Spec.era_days. fold_month.
    replace (y + 1 - 1) with y by lia.
    Z.div_mod_to_equations; lia.
Qed.

Lemma taskDateObj_expected (body : Req.body) (w : World) (s : string)
    (date : Z * Z * Z) (time : option (Z * Z)) :
  Req.taskDate body = Some s ->
  Spec.iso_date s = Some date ->
  100 <= fst (fst date) ->
  Spec.time_field (Req.taskTime body) = Some time ->
  taskDateObj body w = (inr (Int (Spec.expected_instant date time)), w).
Proof.
  destruct date as [[y m] d]. simpl fst.
  intros Hs Hdate Hy Htime.
  apply iso_date_parts in Hdate.
  destruct Hdate as (Py & Pm & Pd & By & Bm & Bd).
  pose proof (days_in_month_le y m) as Hdim.
  unfold taskDateObj. rewrite Hs, Py, Pm, Pd.
  unfold Spec.time_field in Htime.
  destruct (Req.taskTime body) as [[|c r]|].
  - injection Htime as <-. unfold ret, Date_UTC3, Spec.expected_instant.
    now rewrite Date_UTC_civil by lia.
  - destruct (Spec.iso_time (String c r)) as [[h mi]|] eqn:Ht; [|discriminate].
    injection Htime as <-.
    apply iso_time_parts in Ht. destruct Ht as (_ & Ph & Pmi & Bh & Bmi).
    rewrite Ph, Pmi. unfold ret, Spec.expected_instant.
    now rewrite Date_UTC_civil by lia.
  - injection Htime as <-. unfold ret, Date_UTC3, Spec.expected_instant.
    now rewrite Date_UTC_civil by lia.
Qed.

(** For a valid date of year 100 or later and a valid optional time, with
    the required fields filled in and the store connected, [POST /add]
    stores one task whose date is the expected UTC instant. *)
Theorem post_add_stores_utc_instant (rt : Runtime) (body : Req.body) (w : World)
    (s : string) (date : Z * Z * Z) (time : option (Z * Z)) :
  connected w = true ->
  truthy (Req.activity body) = true ->
  truthy (Req.city body) = true ->
  truthy (Req.country body) = true ->
  Req.taskDate body = Some s ->
  Spec.iso_date s = Some date ->
  100 <= fst (fst date) ->
  Spec.time_field (Req.taskTime body) = Some time ->
  exists t,
    post_add rt body w
    = (inr (Redirect "/tasks"),
       mkWorld (readyState w) (collection w ++ [t]) (N.succ (next_oid w))
               (outbound w))
    /\ taskDate t = Spec.expected_instant date time.
Proof.
  intros Hc Ha Hci Hco Hs Hdate Hy Htime.
  rewrite (post_add_connected rt body w Hc).
  rewrite (taskDateObj_expected body w s date time Hs Hdate Hy Htime).
  cbv zeta. unfold fst at 1. unfold validate.
  cbn [Doc.activity Doc.city Doc.country Doc.taskDate].
  destruct (Req.activity body) as [[|a0 a]|]; try discriminate Ha.
  destruct (Req.city body) as [[|c0 c]|]; try discriminate Hci.
  destruct (Req.country body) as [[|k0 k]|]; try discriminate Hco.
  cbn [required_string]. eexists. split; reflexivity.
Qed.

Lemma post_add_stores_utc_instant_witness :
  exists t,
    post_add Sample.rt (Sample.form "2024-02-29" (Some "13:30")) Sample.empty_store
    = (inr (Redirect "/tasks"), mkWorld 1 [t] 1%N [])
    /\ taskDate t = Spec.expected_instant (2024, 2, 29) (Some (13, 30)).
Proof.
  apply (post_add_stores_utc_instant Sample.rt
           (Sample.form "2024-02-29" (Some "13:30")) Sample.empty_store
           "2024-02-29" (2024, 2, 29) (Some (13, 30)));
    solve [reflexivity | vm_compute; discriminate].
Defined.

(** C2, at a valid date of a year below 100: the form's date 0050-06-15 is
    stored as 15 June 1950, not as the instant of 15 June of year 50. *)
Theorem post_add_year_50_stored_as_1950 :
  Spec.iso_date "0050-06-15" = Some (50, 6, 15)
  /\ map taskDate
       (collection (snd (post_add Sample.rt (Sample.form "0050-06-15" None)
                           Sample.empty_store)))
     = [Spec.expected_instant (1950, 6, 15) None]
  /\ Spec.expected_instant (1950, 6, 15) None
     <> Spec.expected_instant (50, 6, 15) None.
Proof. repeat split; vm_compute; congruence. Qed.

Example expected_instants :
  Spec.expected_instant (1970, 1, 1) None = 0
  /\ Spec.expected_instant (2024, 2, 29) (Some (13, 30)) = 1709213400000
  /\ Spec.expected_instant (2000, 1, 1) None = 946684800000.
Proof. repeat split. Qed.

(** * Further properties of the routes *)

(** ** No request ends in the error middleware *)




(** ** What each request may change *)

Lemma delete_first_shape (oid : ObjectId) (l : list Task) :
  delete_first oid l = l \/ one_removed l (delete_first oid l).
Proof.
  induction l as [|x r IH]; simpl; [now left|].
  destruct (has_id oid x).
  - right. exists [], x, r. now split.
  - destruct IH as [->|(l1 & t & l2 & E1 & E2)]; [now left|].
    right. exists (x :: l1), t, l2. simpl. now rewrite <- E1, <- E2.
Qed.

Lemma post_delete_world (id : string) (w : World) :
  snd (post_delete id w) = w
  \/ exists oid, castObjectId id = Some oid /\ connected w = true
       /\ snd (post_delete id w)
          = mkWorld (readyState w) (delete_first oid (collection w))
                    (next_oid w) (outbound w).
Proof.
  destruct (connected w) eqn:Hc.
  - rewrite (post_delete_connected id w Hc).
    destruct (castObjectId id) as [oid|]; [right; eauto | now left].
  - left. unfold post_delete, try_catch, bind, get. now rewrite Hc.
Qed.

Lemma post_add_world (rt : Runtime) (body : Req.body) (w : World) :
  readyState (snd (post_add rt body w)) = readyState w
  /\ outbound (snd (post_add rt body w)) = outbound w.
Proof.
  destruct (connected w) eqn:Hc.
  2:{ now rewrite (post_add_disconnected rt body w Hc). }
  rewrite (post_add_connected rt body w Hc).
  destruct (fst (taskDateObj body w)) as [e|date]; [now split|].
  cbv zeta.
  match goal with |- context [validate ?d] => destruct (validate d) end; now split.
Qed.

Lemma get_weather_world (rt : Runtime) (taskId : string) (w : World) :
  readyState (snd (get_weather rt taskId w)) = readyState w
  /\ next_oid (snd (get_weather rt taskId w)) = next_oid w.
Proof.
  destruct (connected w) eqn:Hc.
  2:{ unfold get_weather, try_catch, bind, get. rewrite Hc. now split. }
  destruct (castObjectId taskId) as [oid|] eqn:Hid.
  2:{ unfold get_weather, try_catch, bind, get, Task_findById.
      rewrite Hc, Hid. now split. }
  destruct (find (has_id oid) (collection w)) as [task|] eqn:Hf.
  2:{ now rewrite (get_weather_not_found rt w taskId oid Hc Hid Hf). }
  destruct (OPENWEATHER_API_KEY rt) as [[|c r]|] eqn:Hk.
  - now rewrite (get_weather_no_key rt w taskId oid task Hc Hid Hf) by now rewrite Hk.
  - now rewrite (get_weather_found rt w taskId oid task c r Hc Hid Hf Hk).
  - now rewrite (get_weather_no_key rt w taskId oid task Hc Hid Hf) by now rewrite Hk.
Qed.

Lemma serve_world (rt : Runtime) (req : Request) (w : World) :
  snd (serve rt req w) = snd (route rt req w).
Proof. unfold serve. now destruct (route rt req w) as [[e|r] w']. Qed.

(** X2. No request changes the connection's state; only [POST /add] can add
    a task, at most one and at the end; only [POST /delete/:id] can remove
    one, at most one; every other request leaves the stored tasks as they
    were, and only the weather route adds to the outbound requests. *)
Theorem serve_effect (rt : Runtime) (req : Request) (w : World) :
  let w' := snd (serve rt req w) in
  readyState w' = readyState w
  /\ match req with
     | POST_add _ =>
         (collection w' = collection w \/ exists t, collection w' = collection w ++ [t])%list
         /\ outbound w' = outbound w
     | POST_delete _ =>
         (collection w' = collection w \/ one_removed (collection w) (collection w'))
         /\ outbound w' = outbound w
     | GET_weather _ =>
         collection w' = collection w
         /\ (outbound w' = outbound w \/ exists url, outbound w' = url :: outbound w)
     | _ => w' = w
     end.
Proof.
  cbv zeta. rewrite serve_world. destruct req; simpl.
  - now split.
  - rewrite get_tasks_world. now split.
  - now split.
  - destruct (post_add_world rt body w) as [Hr Ho].
    repeat split; trivial.
    destruct (post_add_collection rt body w) as [E|(t & _ & E)]; [now left|].
    right. now exists t.
  - destruct (post_delete_world id w) as [->|(oid & _ & _ & ->)]; simpl.
    + repeat split. now left.
    + repeat split. apply delete_first_shape.
  - destruct (get_weather_world rt taskId w) as [Hr _].
    repeat split; trivial.
    + apply get_weather_collection.
    + destruct (get_weather_outbound rt w taskId)
        as [E|(task & c & r & _ & _ & _ & _ & E)]; [now left|].
      right. eauto.
  - now split.
  - now split.
  - now split.
Qed.

(** X3. With the store not connected every route answers without reading or
    changing anything: the list is empty with its error message, adding
    fails, deleting redirects with [error=database], the weather lookup
    answers "Database not available", health reports "disconnected". *)
Theorem serve_disconnected (rt : Runtime) (req : Request) (w : World) :
  connected w = false ->
  serve rt req w = (disconnected_answer rt req w, w).
Proof.
  intros Hc. unfold serve. destruct req; simpl; try reflexivity.
  - unfold get_tasks, try_catch, bind, get. now rewrite Hc.
  - now rewrite (post_add_disconnected rt body w Hc).
  - unfold post_delete, try_catch, bind, get. now rewrite Hc.
  - unfold get_weather, try_catch, bind, get. now rewrite Hc.
  - unfold get_health, bind, get, ret. unfold connected in Hc. now rewrite Hc.
Qed.

Lemma serve_disconnected_witness :
  serve Sample.rt (POST_delete Sample.id0) boot
  = (Redirect "/tasks?error=database", boot).
Proof. apply (serve_disconnected Sample.rt (POST_delete Sample.id0) boot). reflexivity. Defined.

(** ** Creating, further *)

Lemma Date_UTC_time_NaN (y m d h mi : Num) :
  h = NaN \/ mi = NaN -> Date_UTC y m d h mi = NaN.
Proof.
  unfold Date_UTC, MakeTime.
  intros [->| ->]; destruct (MakeDay (MakeFullYear y) m d); try reflexivity;
    destruct h; reflexivity.
Qed.

Lemma validate_copies (d : Doc.t) (t : Task) :
  validate d = Some t ->
  _id t = Doc._id d /\ state t = Doc.state d /\ taskTime t = Doc.taskTime d
  /\ createdAt t = Doc.createdAt d.
Proof.
  unfold validate.
  destruct (required_string (Doc.activity d)); try discriminate.
  destruct (required_string (Doc.city d)); try discriminate.
  destruct (required_string (Doc.country d)); try discriminate.
  destruct (Doc.taskDate d); try discriminate.
  intros H. injection H as <-. now repeat split.
Qed.

Lemma stored_time_match (v : option string) :
  match v with
  | Some (String c r) => Some (String c r)
  | _ => None
  end = stored_time v.
Proof. now destruct v as [[|c r]|]. Qed.

(** X4. The answer of [POST /add] tells what happened: either it redirects
    to the list, and then exactly one task was appended, carrying the form's
    activity, city, state and country, the time text (or none when the field
    is empty), the computed instant, the current time as [createdAt] and a
    fresh id; or it renders the form again with the error, and then the
    stored tasks are as before. *)
Theorem post_add_outcome (rt : Runtime) (body : Req.body) (w : World) :
  (exists t,
     post_add rt body w
     = (inr (Redirect "/tasks"),
        mkWorld (readyState w) (collection w ++ [t]) (N.succ (next_oid w))
                (outbound w))
     /\ connected w = true
     /\ Req.activity body = Some (activity t)
     /\ Req.city body = Some (city t)
     /\ Req.country body = Some (country t)
     /\ state t = Req.state body
     /\ taskTime t = stored_time (Req.taskTime body)
     /\ fst (taskDateObj body w) = inr (Int (taskDate t))
     /\ createdAt t = Date_now rt
     /\ _id t = next_oid w)
  \/ (fst (post_add rt body w) = inr Spec.add_failed
      /\ collection (snd (post_add rt body w)) = collection w).
Proof.
  destruct (connected w) eqn:Hc.
  2:{ right. now rewrite (post_add_disconnected rt body w Hc). }
  rewrite (post_add_connected rt body w Hc).
  destruct (fst (taskDateObj body w)) as [e|date] eqn:Hd; [now right|].
  cbv zeta. rewrite stored_time_match.
  match goal with |- context [validate ?d] => destruct (validate d) as [t|] eqn:Hv end;
    [left | now right].
  exists t. split; [reflexivity|].
  pose proof (validate_stored_ok _ _ Hv) as (Hdate & _ & _ & _ & Ha & Hci & Hco).
  pose proof (validate_copies _ _ Hv) as (Hid & Hst & Htt & Hcr).
  simpl in *. rewrite <- Hdate. now repeat split.
Qed.

Lemma validate_missing (d : Doc.t) :
  truthy (Doc.activity d) = false
  \/ truthy (Doc.city d) = false
  \/ truthy (Doc.country d) = false ->
  validate d = None.
Proof.
  unfold validate.
  destruct (Doc.activity d) as [[|a0 a]|], (Doc.city d) as [[|c0 c]|],
           (Doc.country d) as [[|k0 k]|]; simpl; try reflexivity;
    intros [E|[E|E]]; discriminate E.
Qed.

(** X5. A form whose activity, city or country is missing or empty is not
    stored, whatever its date: the form is rendered again with the error. *)
Theorem post_add_requires_fields (rt : Runtime) (body : Req.body) (w : World) :
  truthy (Req.activity body) = false
  \/ truthy (Req.city body) = false
  \/ truthy (Req.country body) = false ->
  fst (post_add rt body w) = inr Spec.add_failed
  /\ collection (snd (post_add rt body w)) = collection w.
Proof.
  intros Hmiss.
  destruct (connected w) eqn:Hc.
  2:{ now rewrite (post_add_disconnected rt body w Hc). }
  rewrite (post_add_connected rt body w Hc).
  destruct (fst (taskDateObj body w)) as [e|date]; [now split|].
  cbv zeta. rewrite validate_missing by exact Hmiss. now split.
Qed.

Lemma post_add_requires_fields_witness :
  fst (post_add Sample.rt
         (Req.mkBody (Some "Picnic") (Some "") None (Some "US")
                     (Some "2024-03-01") None) Sample.empty_store)
  = inr Spec.add_failed
  /\ collection (snd (post_add Sample.rt
                        (Req.mkBody (Some "Picnic") (Some "") None (Some "US")
                                    (Some "2024-03-01") None) Sample.empty_store))
     = collection Sample.empty_store.
Proof.
  apply (post_add_requires_fields Sample.rt
           (Req.mkBody (Some "Picnic") (Some "") None (Some "US")
                       (Some "2024-03-01") None) Sample.empty_store).
  right. left. reflexivity.
Defined.

(** X6. A time field that is not empty and whose hour does not start with an
    integer, or whose text after the first colon is not empty and does not
    start with one, makes [POST /add] fail: nothing is stored. *)
Theorem post_add_rejects_unreadable_time (rt : Runtime) (body : Req.body)
    (w : World) (ts : string) :
  Req.taskTime body = Some ts ->
  ts <> "" ->
  parseInt_value (index (split ":" ts) 0) = NaN
  \/ parseInt (or_else (index (split ":" ts) 1) "0") = NaN ->
  fst (post_add rt body w) = inr Spec.add_failed
  /\ collection (snd (post_add rt body w)) = collection w.
Proof.
  intros Ht Hne Hnan.
  assert (Hd : forall t, fst (taskDateObj body w) <> inr (Int t)).
  { intros t. unfold taskDateObj.
    destruct (Req.taskDate body) as [s|]; [|discriminate].
    rewrite Ht. destruct ts as [|c r]; [contradiction|].
    unfold ret, fst. rewrite (Date_UTC_time_NaN _ _ _ _ _ Hnan). discriminate. }
  destruct (connected w) eqn:Hc.
  2:{ now rewrite (post_add_disconnected rt body w Hc). }
  rewrite (post_add_connected rt body w Hc).
  destruct (fst (taskDateObj body w)) as [e|[|t]]; [now split | |].
  - cbv zeta. rewrite validate_NaN by reflexivity. now split.
  - now contradiction (Hd t).
Qed.

Lemma post_add_rejects_unreadable_time_witness :
  fst (post_add Sample.rt (Sample.form "2024-03-01" (Some "noon")) Sample.empty_store)
  = inr Spec.add_failed
  /\ collection (snd (post_add Sample.rt (Sample.form "2024-03-01" (Some "noon"))
                        Sample.empty_store))
     = collection Sample.empty_store.
Proof.
  apply (post_add_rejects_unreadable_time Sample.rt
           (Sample.form "2024-03-01" (Some "noon")) Sample.empty_store "noon").
  - reflexivity.
  - discriminate.
  - left. reflexivity.
Defined.

(** ** Deleting, further *)

Lemma without_absent (oid : ObjectId) (l : list Task) :
  ~ In oid (map _id l) -> without oid l = l.
Proof.
  induction l as [|x r IH]; simpl; intros Hn; [reflexivity|].
  destruct (has_id oid x) eqn:E; simpl.
  - exfalso. apply Hn. left. unfold has_id in E. now apply N.eqb_eq in E.
  - f_equal. apply IH. intros Hin. apply Hn. now right.
Qed.

Lemma delete_first_without (oid : ObjectId) (l : list Task) :
  NoDup (map _id l) -> delete_first oid l = without oid l.
Proof.
  induction l as [|x r IH]; simpl; intros Hnd; [reflexivity|].
  inversion Hnd as [|? ? Hx Hr]; subst.
  destruct (has_id oid x) eqn:E; simpl.
  - unfold has_id in E. apply N.eqb_eq in E. subst oid.
    symmetry. now apply without_absent.
  - f_equal. now apply IH.
Qed.

Lemma find_without (oid : ObjectId) (l : list Task) :
  find (has_id oid) (without oid l) = None.
Proof.
  induction l as [|x r IH]; simpl; [reflexivity|].
  destruct (has_id oid x) eqn:E; simpl; [exact IH|]. now rewrite E.
Qed.

(** X7. With the store connected and ids distinct, deleting by a well-formed
    id leaves exactly the tasks of other ids, in their order; a weather
    lookup of the same id afterwards answers "Task not found". *)
Theorem post_delete_removes (rt : Runtime) (id : string) (oid : ObjectId)
    (w : World) :
  connected w = true ->
  castObjectId id = Some oid ->
  NoDup (map _id (collection w)) ->
  collection (snd (post_delete id w)) = without oid (collection w)
  /\ get_weather rt id (snd (post_delete id w))
     = (inr (Json 200 (failure_json "Task not found")), snd (post_delete id w)).
Proof.
  intros Hc Hid Hnd.
  rewrite (post_delete_connected id w Hc), Hid. simpl.
  rewrite (delete_first_without oid _ Hnd). split; [reflexivity|].
  apply (get_weather_not_found rt _ id oid); trivial.
  simpl. apply find_without.
Qed.

Lemma post_delete_removes_witness :
  map _id (collection (snd (post_delete Sample.id0 Sample.three_tasks))) = [1; 2]%N
  /\ get_weather Sample.rt Sample.id0 (snd (post_delete Sample.id0 Sample.three_tasks))
     = (inr (Json 200 (failure_json "Task not found")),
        snd (post_delete Sample.id0 Sample.three_tasks)).
Proof.
  destruct (post_delete_removes Sample.rt Sample.id0 0%N Sample.three_tasks)
    as [Hcol Hw].
  - vm_compute. reflexivity.
  - vm_compute. reflexivity.
  - vm_compute. repeat constructor; simpl; intuition discriminate.
  - split; [rewrite Hcol; vm_compute; reflexivity | exact Hw].
Defined.

(** ** How the routes compose *)

Lemma post_add_redirect_inv (rt : Runtime) (body : Req.body) (w w1 : World) :
  post_add rt body w = (inr (Redirect "/tasks"), w1) ->
  exists t,
    w1 = mkWorld (readyState w) (collection w ++ [t]) (N.succ (next_oid w))
                 (outbound w)
    /\ _id t = next_oid w /\ connected w = true.
Proof.
  destruct (connected w) eqn:Hc.
  2:{ rewrite (post_add_disconnected rt body w Hc). discriminate. }
  rewrite (post_add_connected rt body w Hc).
  destruct (fst (taskDateObj body w)) as [e|date]; [discriminate|].
  cbv zeta.
  match goal with |- context [validate ?d] => destruct (validate d) as [t|] eqn:Hv end;
    [|discriminate].
  intros H. injection H as <-. exists t. repeat split.
  now destruct (validate_copies _ _ Hv) as (Hid & _).
Qed.

Lemma delete_first_last (oid : ObjectId) (l : list Task) (t : Task) :
  _id t = oid -> ~ In oid (map _id l) -> delete_first oid (l ++ [t]) = l.
Proof.
  intros Ht. induction l as [|x r IH]; simpl; intros Hn.
  - unfold has_id. now rewrite Ht, N.eqb_refl.
  - destruct (has_id oid x) eqn:E.
    + exfalso. apply Hn. left. unfold has_id in E. now apply N.eqb_eq in E.
    + f_equal. apply IH. intros Hin. apply Hn. now right.
Qed.

(** X8. Adding and then deleting is a round trip: when [POST /add] has
    stored a task under an id no stored task had, [POST /delete/:id] with
    that id is answered with the redirect and the stored tasks are again
    those before the addition. *)
Theorem post_add_then_delete (rt : Runtime) (body : Req.body) (w w1 : World)
    (id : string) :
  post_add rt body w = (inr (Redirect "/tasks"), w1) ->
  castObjectId id = Some (next_oid w) ->
  ~ In (next_oid w) (map _id (collection w)) ->
  fst (post_delete id w1) = inr (Redirect "/tasks")
  /\ collection (snd (post_delete id w1)) = collection w.
Proof.
  intros Hadd Hid Hfresh.
  destruct (post_add_redirect_inv rt body w w1 Hadd) as (t & -> & Ht & Hc).
  rewrite post_delete_connected by exact Hc.
  rewrite Hid. simpl. split; [reflexivity|].
  now apply delete_first_last.
Qed.

Lemma post_add_then_delete_witness :
  fst (post_delete "000000000000000000000003"
         (snd (post_add Sample.rt (Sample.form "2024-05-05" None) Sample.three_tasks)))
  = inr (Redirect "/tasks")
  /\ collection
       (snd (post_delete "000000000000000000000003"
               (snd (post_add Sample.rt (Sample.form "2024-05-05" None)
                       Sample.three_tasks))))
     = collection Sample.three_tasks.
Proof.
  apply (post_add_then_delete Sample.rt (Sample.form "2024-05-05" None)
           Sample.three_tasks).
  - vm_compute. reflexivity.
  - vm_compute. reflexivity.
  - vm_compute. intuition discriminate.
Defined.

(** X9. What the redirect after a successful [POST /add] shows: the next
    [GET /tasks] lists the tasks stored before together with the new one,
    each once, in ascending order of date. *)
Theorem post_add_then_list (rt : Runtime) (body : Req.body) (w w1 : World) :
  post_add rt body w = (inr (Redirect "/tasks"), w1) ->
  exists t l,
    get_tasks w1 = (inr (Render 200 (tasks "All Tasks" l None)), w1)
    /\ Permutation l (t :: collection w)
    /\ StronglySorted by_date l
    /\ fst (taskDateObj body w) = inr (Int (taskDate t)).
Proof.
  intros Hadd.
  assert (Hc : connected w = true).
  { now destruct (post_add_redirect_inv rt body w w1 Hadd) as (t & _ & _ & Hc). }
  rewrite (post_add_connected rt body w Hc) in Hadd.
  destruct (fst (taskDateObj body w)) as [e|date]; [discriminate|].
  cbv zeta in Hadd.
  match type of Hadd with context [validate ?d] =>
    destruct (validate d) as [t|] eqn:Hv end; [|discriminate].
  injection Hadd as <-.
  exists t, (sort_by_taskDate (collection w ++ [t])). repeat split.
  - unfold get_tasks, try_catch, bind, get, Task_find_sort_taskDate, bind, get, ret.
    unfold connected in *. simpl. now rewrite Hc.
  - rewrite sort_by_taskDate_perm. rewrite Permutation_app_comm. reflexivity.
  - apply sort_by_taskDate_sorted.
  - apply validate_stored_ok in Hv. simpl in Hv. destruct Hv as [-> _]. reflexivity.
Qed.

Lemma post_add_then_list_witness :
  exists t l,
    get_tasks (snd (post_add Sample.rt (Sample.form "2024-02-01" None) Sample.three_tasks))
    = (inr (Render 200 (tasks "All Tasks" l None)),
       snd (post_add Sample.rt (Sample.form "2024-02-01" None) Sample.three_tasks))
    /\ Permutation l (t :: collection Sample.three_tasks)
    /\ StronglySorted by_date l
    /\ fst (taskDateObj (Sample.form "2024-02-01" None) Sample.three_tasks)
       = inr (Int (taskDate t)).
Proof.
  apply (post_add_then_list Sample.rt (Sample.form "2024-02-01" None)
           Sample.three_tasks). vm_compute. reflexivity.
Defined.

(** ** Ids *)

Lemma delete_first_incl (oid : ObjectId) (l : list Task) (t : Task) :
  In t (delete_first oid l) -> In t l.
Proof.
  induction l as [|x r IH]; simpl; [tauto|].
  destruct (has_id oid x); simpl; intuition.
Qed.

Lemma delete_first_NoDup (oid : ObjectId) (l : list Task) :
  NoDup (map _id l) -> NoDup (map _id (delete_first oid l)).
Proof.
  induction l as [|x r IH]; simpl; intros Hnd; [constructor|].
  inversion Hnd as [|? ? Hx Hr]; subst.
  destruct (has_id oid x); [exact Hr|].
  simpl. constructor; [|now apply IH].
  intros Hin. apply Hx. apply in_map_iff in Hin. destruct Hin as (t & Et & Hin).
  apply in_map_iff. exists t. split; [exact Et|]. now apply (delete_first_incl oid).
Qed.

(** X10. No request makes two stored tasks share an id: when the stored
    ids are pairwise distinct and the id the driver gives to the next
    document is not among them, the stored ids are still pairwise distinct
    after any request. *)
Theorem serve_keeps_ids_distinct (rt : Runtime) (req : Request) (w : World) :
  NoDup (map _id (collection w)) ->
  ~ In (next_oid w) (map _id (collection w)) ->
  NoDup (map _id (collection (snd (serve rt req w)))).
Proof.
  intros Hnd Hfresh. rewrite serve_world. destruct req; simpl; trivial.
  - now rewrite get_tasks_world.
  - destruct (connected w) eqn:Hc.
    2:{ now rewrite (post_add_disconnected rt body w Hc). }
    rewrite (post_add_connected rt body w Hc).
    destruct (fst (taskDateObj body w)) as [e|date]; [exact Hnd|].
    cbv zeta.
    match goal with |- context [validate ?d] => destruct (validate d) as [t|] eqn:Hv end;
      [|exact Hnd].
    destruct (validate_copies _ _ Hv) as (Hid & _). simpl in Hid.
    simpl. rewrite map_app. simpl. apply NoDup_app; trivial.
    + repeat constructor. simpl. tauto.
    + intros a Ha [E|[]]. subst a. now rewrite Hid in Ha.
  - destruct (post_delete_world id w) as [->|(oid & _ & _ & ->)]; trivial.
    simpl. now apply delete_first_NoDup.
  - now rewrite get_weather_collection.
Qed.

Lemma serve_keeps_ids_distinct_witness :
  NoDup (map _id (collection
           (snd (serve Sample.rt (POST_add (Sample.form "2024-05-05" None))
                   Sample.three_tasks)))).
Proof.
  apply (serve_keeps_ids_distinct Sample.rt
           (POST_add (Sample.form "2024-05-05" None)) Sample.three_tasks).
  - vm_compute. repeat constructor; simpl; intuition discriminate.
  - vm_compute. intuition discriminate.
Defined.

(** ** The weather request *)

Lemma find_none_absent (id : string) (oid : ObjectId) (w : World) :
  castObjectId id = Some oid ->
  find (has_id oid) (collection w) = None -> absent id w.
Proof.
  intros Hid Hf t Hin E. rewrite Hid in E. injection E as ->.
  pose proof (find_none _ _ Hf t Hin) as Hn.
  unfold has_id in Hn. now rewrite N.eqb_refl in Hn.
Qed.

(** X11. A weather lookup never changes the store, and makes at most one
    request: none when the store is not connected, no stored task has the
    id, or no credential is configured; otherwise exactly one, to the
    provider URL of the task's city and country. *)
Theorem get_weather_single_request (rt : Runtime) (taskId : string) (w : World) :
  collection (snd (get_weather rt taskId w)) = collection w
  /\ readyState (snd (get_weather rt taskId w)) = readyState w
  /\ next_oid (snd (get_weather rt taskId w)) = next_oid w
  /\ ((outbound (snd (get_weather rt taskId w)) = outbound w
       /\ (connected w = false \/ absent taskId w
           \/ truthy (OPENWEATHER_API_KEY rt) = false))
      \/ exists task,
           In task (collection w)
           /\ castObjectId taskId = Some (_id task)
           /\ connected w = true
           /\ truthy (OPENWEATHER_API_KEY rt) = true
           /\ outbound (snd (get_weather rt taskId w))
              = weather_url task (or_else (OPENWEATHER_API_KEY rt) "") :: outbound w).
Proof.
  destruct (get_weather_world rt taskId w) as [Hr Hn].
  split; [apply get_weather_collection|]. split; [exact Hr|]. split; [exact Hn|].
  destruct (connected w) eqn:Hc.
  2:{ left. split; [|now left].
      unfold get_weather, try_catch, bind, get. now rewrite Hc. }
  destruct (castObjectId taskId) as [oid|] eqn:Hid.
  2:{ left. split.
      - unfold get_weather, try_catch, bind, get, Task_findById. now rewrite Hc, Hid.
      - right. left. intros t _ E. rewrite Hid in E. discriminate. }
  destruct (find (has_id oid) (collection w)) as [task|] eqn:Hf.
  2:{ left. split.
      - now rewrite (get_weather_not_found rt w taskId oid Hc Hid Hf).
      - right. left. now apply (find_none_absent taskId oid). }
  destruct (OPENWEATHER_API_KEY rt) as [[|c r]|] eqn:Hk.
  - left. split; [|now (right; right)].
    rewrite (get_weather_no_key rt w taskId oid task Hc Hid Hf); [reflexivity|].
    now rewrite Hk.
  - right. exists task.
    destruct (find_some _ _ Hf) as [Hin Heq].
    unfold has_id in Heq. apply N.eqb_eq in Heq. subst oid.
    repeat split; trivial.
    now rewrite (get_weather_found rt w taskId (_id task) task c r Hc Hid Hf Hk).
  - left. split; [|now (right; right)].
    rewrite (get_weather_no_key rt w taskId oid task Hc Hid Hf); [reflexivity|].
    now rewrite Hk.
Qed.

Lemma hex_digit_unreserved (n : nat) : is_uri_unreserved (hex_digit n) = true.
Proof. do 16 (destruct n as [|n]; [reflexivity|]). now destruct n. Qed.

Lemma encodeURIComponent_safe (s : string) :
  Forall query_safe (list_ascii_of_string (encodeURIComponent s)).
Proof.
  induction s as [|c r IH]; simpl; [constructor|].
  destruct (is_uri_unreserved c) eqn:Eu.
  - simpl. constructor; [now left | exact IH].
  - destruct (nat_of_ascii c <? 128)%nat; unfold percent_byte; simpl;
      repeat (constructor;
              [first [now right | left; apply hex_digit_unreserved]|]);
      exact IH.
Qed.

(** X12. The text of a task cannot alter the provider query: the requested
    URL is the fixed address, the encoded "city,country", the fixed units and
    the credential, and the encoded part holds only unreserved characters
    and percent signs, so no ampersand, equals sign, hash, space or slash. *)
Theorem weather_url_query_safe (task : Task) (apiKey : string) :
  exists q,
    weather_url task apiKey
    = "https://api.openweathermap.org/data/2.5/weather?q=" ++ q
      ++ "&units=imperial&appid=" ++ apiKey
    /\ q = encodeURIComponent (city task ++ "," ++ country task)
    /\ Forall query_safe (list_ascii_of_string q)
    /\ forall c, In c ["&"; "="; "#"; " "; "/"; "?"; "+"]%char ->
                 ~ In c (list_ascii_of_string q).
Proof.
  eexists. split; [reflexivity|]. split; [reflexivity|].
  split; [apply encodeURIComponent_safe|].
  intros c Hc Hin.
  pose proof (encodeURIComponent_safe (city task ++ "," ++ country task)) as Hs.
  rewrite Forall_forall in Hs. specialize (Hs c Hin).
  simpl in Hc. unfold query_safe in Hs.
  repeat (destruct Hc as [<-|Hc]; [destruct Hs as [Hs|Hs]; discriminate Hs|]).
  exact Hc.
Qed.

(** ** Dates and times out of range *)

Lemma MakeDay_carried (y m0 d : Z) :
  -900000 <= y <= 900000 -> -12 <= m0 <= 120 ->
  MakeDay (Int y) (Int m0) (Int d)
  = Int (Spec.days_from_civil (y + m0 / 12) (m0 mod 12 + 1) 1 + d - 1).
Proof.
  intros Hy Hm.
  assert (Hq : -1 <= m0 / 12 <= 10) by (Z.div_mod_to_equations; lia).
  assert (Hr : 0 <= m0 mod 12 < 12) by (apply Z.mod_pos_bound; lia).
  pose proof (MakeDay_civil (y + m0 / 12) (m0 mod 12 + 1) d) as Hc.
  replace (m0 mod 12 + 1 - 1) with (m0 mod 12) in Hc by lia.
  assert (E : MakeDay (Int y) (Int m0) (Int d)
              = MakeDay (Int (y + m0 / 12)) (Int (m0 mod 12)) (Int d)).
  { unfold MakeDay.
    replace (Z.abs y <=? 1000000) with true by (symmetry; apply Z.leb_le; lia).
    replace (Z.abs m0 <=? 10000000) with true by (symmetry; apply Z.leb_le; lia).
    replace (Z.abs (y + m0 / 12) <=? 1000000) with true
      by (symmetry; apply Z.leb_le; lia).
    replace (Z.abs (m0 mod 12) <=? 10000000) with true
      by (symmetry; apply Z.leb_le; lia).
    simpl andb. cbv iota.
    rewrite (Z.div_small (m0 mod 12) 12) by lia.
    rewrite (Z.mod_small (m0 mod 12) 12) by lia.
    now rewrite Z.add_0_r. }
  rewrite E, Hc by lia. f_equal. unfold Spec.days_from_civil. lia.
Qed.

Lemma days_from_civil_range (y m : Z) :
  0 <= y <= 10100 -> 1 <= m <= 12 ->
  -800000 <= Spec.days_from_civil y m 1 <= 3100000.
Proof.
  intros Hy Hm. unfold Spec.days_from_civil, Spec.era_days, Spec.march_days.
  destruct (m <=? 2); Z.div_mod_to_equations; lia.
Qed.

Lemma Date_UTC_carried (y m d h mi : Z) :
  100 <= y <= 9999 -> 0 <= m <= 99 -> 0 <= d <= 99 ->
  0 <= h <= 99 -> 0 <= mi <= 99 ->
  Date_UTC (Int y) (num_sub (Int m) (Int 1)) (Int d) (Int h) (Int mi)
  = Int (carried_instant y m d h mi).
Proof.
  intros Hy Hm Hd Hh Hmi.
  unfold Date_UTC, MakeFullYear, num_sub.
  replace ((0 <=? y) && (y <=? 99)) with false
    by (symmetry; apply andb_false_iff; right; apply Z.leb_gt; lia).
  rewrite MakeDay_carried by lia.
  assert (Hq : -1 <= (m - 1) / 12 <= 8) by (Z.div_mod_to_equations; lia).
  assert (Hr : 0 <= (m - 1) mod 12 < 12) by (apply Z.mod_pos_bound; lia).
  pose proof (days_from_civil_range (y + (m - 1) / 12) ((m - 1) mod 12 + 1)) as Hb.
  unfold MakeTime, MakeDate, TimeClip, carried_instant, Spec.utc_instant,
    msPerDay, msPerHour, msPerMinute.
  match goal with |- (if ?b then _ else _) = _ => replace b with false end.
  - f_equal. lia.
  - symmetry. rewrite Z.gtb_ltb. apply Z.ltb_ge. lia.
Qed.

Lemma digits_date_parts (s : string) (y m d : Z) :
  digits_date s = Some (y, m, d) ->
  parseInt_value (index (split "-" s) 0) = Int y
  /\ parseInt_value (index (split "-" s) 1) = Int m
  /\ parseInt_value (index (split "-" s) 2) = Int d
  /\ 0 <= y <= 9999 /\ 0 <= m <= 99 /\ 0 <= d <= 99.
Proof.
  unfold digits_date.
  destruct s as [|y1 [|y2 [|y3 [|y4 [|h1 [|m1 [|m2 [|h2 [|d1 [|d2 [|x s]]]]]]]]]]];
    cbn [list_ascii_of_string]; try discriminate.
  destruct (Ascii.eqb_spec h1 "-") as [->|]; [|discriminate].
  destruct (Ascii.eqb_spec h2 "-") as [->|]; [|discriminate].
  cbn [andb].
  destruct (forallb Spec.is_digit [y1; y2; y3; y4; m1; m2; d1; d2]) eqn:Hdig;
    [|discriminate].
  remember (1000 * Spec.digit y1 + 100 * Spec.digit y2 + 10 * Spec.digit y3
            + Spec.digit y4) as Y eqn:EY.
  remember (10 * Spec.digit m1 + Spec.digit m2) as Mo eqn:EM.
  remember (10 * Spec.digit d1 + Spec.digit d2) as Dd eqn:ED.
  intros H. injection H as <- <- <-.
  rewrite (split_date _ _ _ _ _ _ _ _ Hdig).
  cbn [forallb] in Hdig.
  repeat match type of Hdig with
         | _ && _ = true =>
             let H1 := fresh "D" in apply andb_prop in Hdig; destruct Hdig as [H1 Hdig]
         end.
  unfold index, nth_error, parseInt_value.
  rewrite parseInt_4, !parseInt_2 by assumption.
  repeat match goal with
         | D : Spec.is_digit _ = true |- _ =>
             apply is_digit_facts in D; destruct D as (_ & _ & D & _)
         end.
  subst Y Mo Dd. repeat split; try reflexivity; lia.
Qed.

Lemma digits_time_parts (c : ascii) (r : string) (h mi : Z) :
  digits_time (Some (String c r)) = Some (h, mi) ->
  parseInt_value (index (split ":" (String c r)) 0) = Int h
  /\ parseInt (or_else (index (split ":" (String c r)) 1) "0") = Int mi
  /\ 0 <= h <= 99 /\ 0 <= mi <= 99.
Proof.
  unfold digits_time.
  destruct r as [|h2 [|c' [|m1 [|m2 [|x s]]]]];
    cbn [list_ascii_of_string]; try discriminate.
  destruct (Ascii.eqb_spec c' ":") as [->|]; [|discriminate].
  cbn [andb].
  destruct (forallb Spec.is_digit [c; h2; m1; m2]) eqn:Hdig; [|discriminate].
  remember (10 * Spec.digit c + Spec.digit h2) as H eqn:EH.
  remember (10 * Spec.digit m1 + Spec.digit m2) as Mi eqn:EMi.
  intros E. injection E as <- <-.
  rewrite (split_time _ _ _ _ Hdig).
  cbn [forallb] in Hdig.
  repeat match type of Hdig with
         | _ && _ = true =>
             let H1 := fresh "D" in apply andb_prop in Hdig; destruct Hdig as [H1 Hdig]
         end.
  cbn [index nth_error or_else]. unfold parseInt_value.
  rewrite !parseInt_2 by assumption.
  repeat match goal with
         | D : Spec.is_digit _ = true |- _ =>
             apply is_digit_facts in D; destruct D as (_ & _ & D & _)
         end.
  subst H Mi. repeat split; try reflexivity; lia.
Qed.

(** X13. Numbers out of the calendar's range are carried over, not refused:
    for a date field of the shape dddd-dd-dd with a year of 100 or more and
    a time field that is empty or of the shape dd:dd, with the required
    fields filled in and the store connected, the task is stored at the
    first of the month counted from January of the year, plus the day
    number less one in days, plus the hours and the minutes. *)
Theorem post_add_carries_over (rt : Runtime) (body : Req.body) (w : World)
    (s : string) (y m d h mi : Z) :
  connected w = true ->
  truthy (Req.activity body) = true ->
  truthy (Req.city body) = true ->
  truthy (Req.country body) = true ->
  Req.taskDate body = Some s ->
  digits_date s = Some (y, m, d) ->
  100 <= y ->
  digits_time (Req.taskTime body) = Some (h, mi) ->
  exists t,
    post_add rt body w
    = (inr (Redirect "/tasks"),
       mkWorld (readyState w) (collection w ++ [t]) (N.succ (next_oid w))
               (outbound w))
    /\ taskDate t = carried_instant y m d h mi.
Proof.
  intros Hc Ha Hci Hco Hs Hdate Hy Htime.
  apply digits_date_parts in Hdate.
  destruct Hdate as (Py & Pm & Pd & By & Bm & Bd).
  assert (Hobj : taskDateObj body w = (inr (Int (carried_instant y m d h mi)), w)).
  { unfold taskDateObj. rewrite Hs, Py, Pm, Pd.
    destruct (Req.taskTime body) as [[|c r]|].
    - injection Htime as <- <-. unfold ret, Date_UTC3.
      now rewrite Date_UTC_carried by lia.
    - apply digits_time_parts in Htime. destruct Htime as (Ph & Pmi & Bh & Bmi).
      rewrite Ph, Pmi. unfold ret. now rewrite Date_UTC_carried by lia.
    - injection Htime as <- <-. unfold ret, Date_UTC3.
      now rewrite Date_UTC_carried by lia. }
  rewrite (post_add_connected rt body w Hc), Hobj.
  cbv zeta. unfold fst at 1. unfold validate.
  cbn [Doc.activity Doc.city Doc.country Doc.taskDate].
  destruct (Req.activity body) as [[|a0 a]|]; try discriminate Ha.
  destruct (Req.city body) as [[|c0 c]|]; try discriminate Hci.
  destruct (Req.country body) as [[|k0 k]|]; try discriminate Hco.
  cbn [required_string]. eexists. split; reflexivity.
Qed.

Lemma post_add_carries_over_witness :
  exists t,
    post_add Sample.rt (Sample.form "2024-13-40" (Some "25:61")) Sample.empty_store
    = (inr (Redirect "/tasks"), mkWorld 1 [t] 1%N [])
    /\ taskDate t = carried_instant 2024 13 40 25 61.
Proof.
  apply (post_add_carries_over Sample.rt
           (Sample.form "2024-13-40" (Some "25:61")) Sample.empty_store
           "2024-13-40" 2024 13 40 25 61);
    solve [reflexivity | vm_compute; discriminate].
Defined.

Example carried_instants :
  carried_instant 2024 13 40 0 0 = Spec.expected_instant (2025, 2, 9) None
  /\ carried_instant 2024 13 40 25 61 = Spec.expected_instant (2025, 2, 10) (Some (2, 1))
  /\ carried_instant 2024 0 0 0 0 = Spec.expected_instant (2023, 11, 30) None.
Proof. repeat split. Qed.

Lemma carried_instant_in_range (y m d h mi : Z) :
  1 <= m <= 12 -> carried_instant y m d h mi = Spec.utc_instant y m d h mi.
Proof.
  intros Hm. unfold carried_instant, Spec.utc_instant, Spec.days_from_civil.
  rewrite (Z.div_small (m - 1) 12), (Z.mod_small (m - 1) 12) by lia.
  replace (y + 0) with y by lia. replace (m - 1 + 1) with m by lia. lia.
Qed.

(** ** Text after the date *)

Lemma split_cons_other (sep c : ascii) (s : string) :
  Ascii.eqb c sep = false ->
  split sep (String c s)
  = String c (hd EmptyString (split sep s)) :: tl (split sep s).
Proof.
  intros E. cbn [split]. rewrite E. now destruct (split sep s).
Qed.

Lemma split_cons_sep (sep : ascii) (s : string) :
  split sep (String sep s) = EmptyString :: split sep s.
Proof. cbn [split]. now rewrite Ascii.eqb_refl. Qed.

Lemma split_not_nil (sep : ascii) (s : string) : split sep s <> [].
Proof.
  destruct s as [|c r]; cbn [split]; [discriminate|].
  destruct (Ascii.eqb c sep); [discriminate|].
  destruct (split sep r); discriminate.
Qed.

Lemma split_head_no_digit (tail : string) :
  no_leading_digit tail -> no_leading_digit (hd EmptyString (split "-" tail)).
Proof.
  destruct tail as [|c r]; [exact (fun H => H)|].
  cbn [no_leading_digit split]. intros Hc.
  destruct (Ascii.eqb c "-"); [exact I|].
  destruct (split "-" r); exact Hc.
Qed.

Lemma not_digit_stops (c : ascii) :
  Spec.is_digit c = false ->
  match digit_value c with
  | Some v => v <? 10
  | None => false
  end = false.
Proof.
  destruct c as [b0 b1 b2 b3 b4 b5 b6 b7].
  destruct b0, b1, b2, b3, b4, b5, b6, b7; intros H; vm_compute in H;
    try discriminate H; reflexivity.
Qed.

Lemma parseInt_2_then (a b : ascii) (p : string) :
  Spec.is_digit a = true -> Spec.is_digit b = true -> no_leading_digit p ->
  parseInt (String a (String b p)) = Int (10 * Spec.digit a + Spec.digit b).
Proof.
  intros Ha Hb Hp.
  destruct (is_digit_facts a Ha) as (Va & La & Ba & Wa & Ma & Pa & _).
  destruct (is_digit_facts b Hb) as (Vb & Lb & Bb & _ & _ & _ & _ & Xb & XXb).
  unfold parseInt. cbn [trim_start]. rewrite Wa.
  unfold strip_sign. rewrite Ma, Pa.
  unfold strip_prefix. rewrite Xb, XXb, andb_false_r.
  cbn [radix_prefix]. rewrite Va, La, Vb, Lb.
  assert (E : forall acc, radix_prefix 10 p (Some acc) = Some acc).
  { intros acc. destruct p as [|c r]; [reflexivity|]. cbn [radix_prefix].
    pose proof (not_digit_stops c Hp) as Hs.
    destruct (digit_value c) as [v|]; [now rewrite Hs | reflexivity]. }
  rewrite E. f_equal. lia.
Qed.

Lemma digits_date_parts_then (s tail : string) (y m d : Z) :
  digits_date s = Some (y, m, d) ->
  no_leading_digit tail ->
  parseInt_value (index (split "-" (s ++ tail)) 0) = Int y
  /\ parseInt_value (index (split "-" (s ++ tail)) 1) = Int m
  /\ parseInt_value (index (split "-" (s ++ tail)) 2) = Int d.
Proof.
  unfold digits_date.
  destruct s as [|y1 [|y2 [|y3 [|y4 [|h1 [|m1 [|m2 [|h2 [|d1 [|d2 [|x s]]]]]]]]]]];
    cbn [list_ascii_of_string]; try discriminate.
  destruct (Ascii.eqb_spec h1 "-") as [->|]; [|discriminate].
  destruct (Ascii.eqb_spec h2 "-") as [->|]; [|discriminate].
  cbn [andb].
  destruct (forallb Spec.is_digit [y1; y2; y3; y4; m1; m2; d1; d2]) eqn:Hdig;
    [|discriminate].
  remember (1000 * Spec.digit y1 + 100 * Spec.digit y2 + 10 * Spec.digit y3
            + Spec.digit y4) as Y eqn:EY.
  remember (10 * Spec.digit m1 + Spec.digit m2) as Mo eqn:EM.
  remember (10 * Spec.digit d1 + Spec.digit d2) as Dd eqn:ED.
  intros H Htail. injection H as <- <- <-.
  cbn [forallb] in Hdig.
  repeat match type of Hdig with
         | _ && _ = true =>
             let H1 := fresh "D" in apply andb_prop in Hdig; destruct Hdig as [H1 Hdig]
         end.
  assert (Hsep : forall c, Spec.is_digit c = true -> Ascii.eqb c "-" = false).
  { intros c Hc. now destruct (is_digit_facts c Hc) as (_ & _ & _ & _ & E & _). }
  cbn [append].
  rewrite (split_cons_other "-" y1), (split_cons_other "-" y2),
    (split_cons_other "-" y3), (split_cons_other "-" y4), split_cons_sep,
    (split_cons_other "-" m1), (split_cons_other "-" m2), split_cons_sep,
    (split_cons_other "-" d1), (split_cons_other "-" d2) by auto.
  cbn [hd tl index nth_error]. unfold parseInt_value.
  rewrite parseInt_4, parseInt_2 by assumption.
  rewrite parseInt_2_then by (trivial; now apply split_head_no_digit).
  subst. now repeat split.
Qed.

(** X14. Text after the day is not read: a date field of the shape
    dddd-dd-dd followed by anything that does not start with a digit (a time
    after a T, a blank and a note, a further hyphen) is treated as the date
    field alone, so [POST /add] answers and stores the same. *)
Theorem post_add_ignores_text_after_date (rt : Runtime) (body : Req.body)
    (w : World) (s tail : string) (date : Z * Z * Z) :
  digits_date s = Some date ->
  no_leading_digit tail ->
  post_add rt (with_date body (s ++ tail)) w = post_add rt (with_date body s) w.
Proof.
  destruct date as [[y m] d]. intros Hd Htail.
  destruct (digits_date_parts_then s tail y m d Hd Htail) as (Ey & Em & Ed).
  destruct (digits_date_parts s y m d Hd) as (Ey' & Em' & Ed' & _).
  assert (Hobj : taskDateObj (with_date body (s ++ tail)) w
                 = taskDateObj (with_date body s) w).
  { unfold taskDateObj, with_date. cbn [Req.taskDate Req.taskTime].
    now rewrite Ey, Em, Ed, Ey', Em', Ed'. }
  destruct (connected w) eqn:Hc.
  - rewrite !(post_add_connected rt _ w Hc), Hobj. reflexivity.
  - now rewrite !(post_add_disconnected rt _ w Hc).
Qed.

Lemma post_add_ignores_text_after_date_witness :
  post_add Sample.rt (with_date (Sample.form "" None) ("2024-03-01" ++ "T10:00:00Z"))
           Sample.empty_store
  = post_add Sample.rt (with_date (Sample.form "" None) "2024-03-01")
             Sample.empty_store.
Proof.
  apply (post_add_ignores_text_after_date Sample.rt (Sample.form "" None)
           Sample.empty_store "2024-03-01" "T10:00:00Z" (2024, 3, 1));
    reflexivity.
Defined.

(** ** Splitting *)

(** X15. [split] loses nothing: the pieces of a string, joined again with
    the separator, are the string; there is always at least one piece, and
    no piece holds the separator. *)
Theorem split_concat (sep : ascii) (s : string) :
  String.concat (String sep EmptyString) (split sep s) = s
  /\ split sep s <> []
  /\ Forall (fun p => ~ In sep (list_ascii_of_string p)) (split sep s).
Proof.
  split; [|split; [apply split_not_nil|]].
  - induction s as [|c r IH]; [reflexivity|].
    cbn [split]. pose proof (split_not_nil sep r) as Hn.
    destruct (split sep r) as [|p ps]; [contradiction|].
    destruct (Ascii.eqb_spec c sep) as [->|Hne].
    + change (String.concat (String sep "") ("" :: p :: ps))
        with ("" ++ String sep "" ++ String.concat (String sep "") (p :: ps)).
      now rewrite IH.
    + destruct ps as [|q qs].
      * cbn [String.concat] in *. now rewrite IH.
      * change (String.concat (String sep "") (String c p :: q :: qs))
          with (String c (p ++ String sep "" ++ String.concat (String sep "") (q :: qs))).
        f_equal. exact IH.
  - induction s as [|c r IH]; [repeat constructor; simpl; tauto|].
    cbn [split]. destruct (Ascii.eqb_spec c sep) as [->|Hne].
    + constructor; [simpl; tauto | exact IH].
    + destruct (split sep r) as [|p ps].
      * repeat constructor. simpl. intuition.
      * inversion IH as [|? ? Hp Hps]; subst. constructor; [|exact Hps].
        simpl. intros [E|E]; [now apply Hne | now apply Hp].
Qed.

(** ** The rest of the weather answer *)

(** X16. A lookup that succeeds names the place as the provider resolved
    it, describes the conditions by the first entry of the provider's list,
    shows the task's activity and the host's rendering of its date, and
    leaves the world as it was but for the one request logged. *)
Theorem get_weather_view_text (rt : Runtime) (w : World) (taskId : string)
    (oid : ObjectId) (task : Task) (c : ascii) (r : string)
    (d : Owm.data) (m : Owm.main_t) (cond : Owm.condition)
    (conds : list Owm.condition) (speed all : Q) :
  connected w = true ->
  castObjectId taskId = Some oid ->
  find (has_id oid) (collection w) = Some task ->
  OPENWEATHER_API_KEY rt = Some (String c r) ->
  axios_get rt (weather_url task (String c r)) = Resolved d ->
  Owm.main d = Some m ->
  Owm.weather d = cond :: conds ->
  Owm.wind d = Some speed ->
  Owm.clouds d = Some all ->
  exists v,
    get_weather rt taskId w
    = (inr (Json 200 (weather_json v)), requested (weather_url task (String c r)) w)
    /\ WeatherView.location v = Owm.name d
    /\ WeatherView.description v = Owm.description cond
    /\ TaskView.activity (WeatherView.task v) = activity task
    /\ TaskView.date (WeatherView.task v) = toLocaleDateString rt (taskDate task).
Proof.
  intros Hc Hid Hf Hk Hax Hm Hw Hs Ha.
  rewrite (get_weather_found rt w taskId oid task c r Hc Hid Hf Hk).
  cbv zeta. rewrite Hax. unfold weather_of. rewrite Hm, Hw, Hs, Ha.
  simpl. eexists. split; [reflexivity|]. now repeat split.
Qed.

Lemma get_weather_view_text_witness :
  exists v,
    get_weather Sample.rt Sample.id0 Sample.three_tasks
    = (inr (Json 200 (weather_json v)),
       requested (weather_url Sample.picnic "k3y") Sample.three_tasks)
    /\ WeatherView.location v = "College Park"
    /\ WeatherView.description v = "clear sky"
    /\ TaskView.activity (WeatherView.task v) = "Picnic"
    /\ TaskView.date (WeatherView.task v) = "Fri, Mar 1, 2024".
Proof.
  apply (get_weather_view_text Sample.rt Sample.three_tasks Sample.id0 0%N
           Sample.picnic "k" "3y" Sample.data
           (Owm.mkMain (7249 # 100) (6950 # 100) (40 # 1))
           (Owm.mkCondition "clear sky" "01d") [] (57 # 10) (0 # 1));
    vm_compute; reflexivity.
Defined.
